(** * The form-submission controller of [static/script.js]

    The script registers one asynchronous listener for the [submit] event of
    the form [gemini-form].  The listener cancels the native submission,
    snapshots the form into a [FormData], switches the page to a busy state,
    sends one request with [fetch], renders the answer (or a failure text)
    and finally switches the page back.

    The development is a shallow embedding: the listener is a computation
    in a small state-and-exception monad over the page, written statement
    by statement after the source.  The browser primitives the listener
    calls ([getElementById], the [textContent] setter, [fetch], [await],
    ...) are modelled after the DOM, WebIDL, Fetch and ECMAScript
    standards. *)

From stdpp Require Import gmap strings list pretty.

#[local] Set Warnings "-register-all".

(** ** ECMAScript values and exceptions *)

(** The values the listener handles: whatever [response.json()] resolves
    to, and [undefined] for a property that is missing.  A number is kept
    as its canonical rendering [Number::toString]; the listener observes
    numbers through [ToString] and [ToBoolean] only, and the rendering
    is ["0"] exactly for the two zeros (JSON has no NaN). *)
Inductive value : Type :=
  | VUndefined
  | VNull
  | VBool (b : bool)
  | VNumber (shown : string)
  | VString (s : string)
  | VArray (items : list value)
  | VObject (props : gmap string value).

(** A thrown [Error] object: its [name] and its [message]. *)
Record exn : Type := Exn { exn_name : string; exn_message : string }.

Definition TypeError (msg : string) : exn := Exn "TypeError" msg.
Definition SyntaxError (msg : string) : exn := Exn "SyntaxError" msg.

(** [ToString] (ECMA-262, 7.1.17), [None] when the conversion throws a
    [TypeError].  An object is converted by [OrdinaryToPrimitive], which
    calls its [toString] method and, failing that, its [valueOf].  A
    parsed object inherits both from [Object.prototype] and renders as
    ["[object Object]"], unless it has an own property named [toString]:
    that property, a JSON value, is not callable and hides the inherited
    method, [valueOf] (inherited, or hidden by a JSON value in turn)
    gives no primitive, and the conversion throws.  An array joins its
    elements with a comma, rendering [undefined] and [null] elements as
    the empty string and converting the others, so that it throws when
    one of them does. *)
Fixpoint ToString (v : value) : option string :=
  match v with
  | VUndefined => Some "undefined"
  | VNull => Some "null"
  | VBool b => Some (if b then "true" else "false")
  | VNumber shown => Some shown
  | VString s => Some s
  | VArray items =>
      String.concat "," <$>
        (fix join (items : list value) : option (list string) :=
           match items with
           | [] => Some []
           | x :: rest =>
               match (match x with
                      | VUndefined | VNull => Some ""
                      | _ => ToString x
                      end), join rest with
               | Some shown, Some others => Some (shown :: others)
               | _, _ => None
               end
           end) items
  | VObject props =>
      if props !! "toString" is Some _ then None else Some "[object Object]"
  end.

(** [ToBoolean] (ECMA-262, 7.1.2). *)
Definition ToBoolean (v : value) : bool :=
  match v with
  | VUndefined | VNull => false
  | VBool b => b
  | VNumber shown => negb (String.eqb shown "0")
  | VString s => negb (String.eqb s "")
  | VArray _ | VObject _ => true
  end.

(** [a || b]. *)
Definition logical_or (a b : value) : value :=
  if ToBoolean a then a else b.

(** Conversion to the WebIDL type [DOMString?], [None] when it throws.
    The DOM standard declares the [textContent] attribute of a node with
    this nullable type.  WebIDL converts [null] and [undefined] alike to
    the IDL null and sends every other value through [ToString]; the
    setter of [textContent] then takes null for the empty string.  (An
    attribute of the plain type [DOMString] would show [undefined] as the
    nine letters of its name; [textContent] does not.) *)
Definition nullable_DOMString (v : value) : option string :=
  match v with
  | VUndefined | VNull => Some ""
  | _ => ToString v
  end.

(** ** The page *)

(** The four attributes of an element that the listener writes. *)
Record element : Type := Element {
  disabled : bool;
  classList : gset string;
  textContent : string;
  style_color : string
}.

Definition with_disabled (b : bool) (el : element) : element :=
  Element b (classList el) (textContent el) (style_color el).
Definition with_classList (f : gset string → gset string) (el : element) : element :=
  Element (disabled el) (f (classList el)) (textContent el) (style_color el).
Definition with_textContent (s : string) (el : element) : element :=
  Element (disabled el) (classList el) s (style_color el).
Definition with_style_color (c : string) (el : element) : element :=
  Element (disabled el) (classList el) (textContent el) c.

(** The document, by element id: the attributes of each element that has
    one.  Two different ids name two different elements.  The elements
    are taken side by side, as the button, the indicator and the output
    of this page are: the model does not follow the tree of the document,
    in which writing the text of an element would also change the text
    read from the elements around it and drop the elements inside it. *)
Abbreviation document := (gmap string element).

(** ** Forms, requests and responses *)

Inductive FormDataEntryValue : Type :=
  | TextEntry (text : string)
  | FileEntry (filename : string) (content : list Byte.byte).

(** A [FormData] object: the entry list, in order, duplicates kept. *)
Abbreviation FormData := (list (string * FormDataEntryValue)).

(** The form that fired the event, seen as the entry list its controls
    make up at that moment. *)
Record HTMLFormElement : Type := Form { entry_list : FormData }.

(** The [submit] event. *)
Record SubmitEvent : Type := Event {
  target : HTMLFormElement;
  cancelable : bool
}.

Inductive BodyInit : Type :=
  | BodyFormData (fd : FormData)
  | BodyText (s : string).

(** The second argument of [fetch]; [headers] is [None] when the literal
    has no such key. *)
Record RequestInit : Type := Init {
  method : string;
  body : BodyInit;
  headers : option (list (string * string))
}.

(** The content type Fetch derives from the body when the caller gives
    none (the multipart boundary, chosen by the browser, is left out). *)
Definition extracted_content_type (b : BodyInit) : string :=
  match b with
  | BodyFormData _ => "multipart/form-data"
  | BodyText _ => "text/plain;charset=UTF-8"
  end.

(** A promise, by the way it settles. *)
Inductive promise (A : Type) : Type :=
  | Fulfilled (a : A)
  | Rejected (e : exn).
Arguments Fulfilled {A} a.
Arguments Rejected {A} e.

(** A [Response]: the status code and what [json()] will settle to (the
    parsed body, or the rejection for a body that cannot be read or is
    not JSON). *)
Record Response : Type := Resp {
  status : N;
  json_body : promise value
}.

(** [response.ok]: the status is in the range 200 to 299. *)
Definition ok (r : Response) : bool :=
  (200 <=? status r)%N && (status r <=? 299)%N.

(** The network and the backend behind it: how the promise returned by
    [fetch url init] settles. *)
Definition network : Type := string → RequestInit → promise Response.

(** ** The listener's effects *)

(** What the listener does to the outside, in program order. *)
Inductive action : Type :=
  | APreventDefault
  | ANewFormData (fd : FormData)
  | ASetDisabled (id : string) (b : bool)
  | AClassRemove (id token : string)
  | AClassAdd (id token : string)
  | ASetTextContent (id text : string)
  | ASetColor (id color : string)
  | AFetch (url : string) (init : RequestInit)
  | AConsoleError (label : string) (error : exn).

(** The state one run of the listener works on: the document, the
    canceled flag of the event being dispatched, the journal of the
    actions performed so far, and [frames], the document as it stood each
    time the listener was suspended at an [await] (the states of the page
    a user can see while the run is under way: between two suspensions the
    listener runs to completion and nothing is painted). *)
Record world : Type := World {
  doc : document;
  defaultPrevented : bool;
  journal : list action;
  frames : list document
}.

Inductive completion (A : Type) : Type :=
  | Normal (a : A)
  | Throw (e : exn).
Arguments Normal {A} a.
Arguments Throw {A} e.

Definition js (A : Type) : Type := world → completion A * world.

#[export] Instance js_ret : MRet js := λ A a w, (Normal a, w).
#[export] Instance js_bind : MBind js := λ A B f m w,
  match m w with
  | (Normal a, w') => f a w'
  | (Throw e, w') => (Throw e, w')
  end.

Definition throw {A} (e : exn) : js A := λ w, (Throw e, w).

Definition log (a : action) : js unit := λ w,
  (Normal (), World (doc w) (defaultPrevented w) (journal w ++ [a]) (frames w)).

Definition update (id : string) (f : element → element) : js unit := λ w,
  (Normal (), World (alter f id (doc w)) (defaultPrevented w) (journal w) (frames w)).

(** [try { body } catch (error) { handler } finally { finalizer }]: the
    finalizer runs after the body or after the handler, however they
    complete, and its own abrupt completion would replace theirs. *)
Definition try_catch_finally {A} (body : js A) (handler : exn → js A)
    (finalizer : js unit) : js A := λ w,
  let '(c, w1) := match body w with
                  | (Throw e, w') => handler e w'
                  | r => r
                  end in
  match finalizer w1 with
  | (Normal _, w2) => (c, w2)
  | (Throw e, w2) => (Throw e, w2)
  end.

(** [await p]: the listener is suspended, the page shows the document as
    it stands, and the run resumes with the value of the promise or with
    its rejection thrown. *)
Definition await {A} (p : promise A) : js A := λ w,
  let w' := World (doc w) (defaultPrevented w) (journal w) (frames w ++ [doc w]) in
  match p with
  | Fulfilled a => (Normal a, w')
  | Rejected e => (Throw e, w')
  end.

(** ** The browser primitives the listener calls *)

(** [e.preventDefault()]: sets the canceled flag of a cancelable event. *)
Definition preventDefault (e : SubmitEvent) : js unit := λ w,
  (Normal (),
   World (doc w) (defaultPrevented w || cancelable e)
         (journal w ++ [APreventDefault]) (frames w)).

(** [new FormData(form)]: a copy of the entry list of the form. *)
Definition new_FormData (form : HTMLFormElement) : js FormData :=
  log (ANewFormData (entry_list form)) ;; mret (entry_list form).

(** [document.getElementById(id)]: a reference to the element, or [null]
    ([None]) when the document has none with this id. *)
Definition getElementById (id : string) : js (option string) := λ w,
  (Normal (if doc w !! id is Some _ then Some id else None), w).

Definition null_access {A} (prop : string) : js A :=
  throw (TypeError ("Cannot access property '" +:+ prop +:+ "' of null")).

(** [el.disabled = b]. *)
Definition set_disabled (el : option string) (b : bool) : js unit :=
  match el with
  | None => null_access "disabled"
  | Some id => update id (with_disabled b) ;; log (ASetDisabled id b)
  end.

(** [el.classList.remove(token)]. *)
Definition classList_remove (el : option string) (token : string) : js unit :=
  match el with
  | None => null_access "classList"
  | Some id =>
      update id (with_classList (λ c, c ∖ {[token]})) ;; log (AClassRemove id token)
  end.

(** [el.classList.add(token)]. *)
Definition classList_add (el : option string) (token : string) : js unit :=
  match el with
  | None => null_access "classList"
  | Some id =>
      update id (with_classList (λ c, c ∪ {[token]})) ;; log (AClassAdd id token)
  end.

(** The outcome of a conversion to a string: the string, or the
    [TypeError] of a value that has no primitive. *)
Definition conversion (converted : option string) : js string :=
  match converted with
  | Some text => mret text
  | None => throw (TypeError "Cannot convert object to primitive value")
  end.

(** [el.textContent = v]: the setter converts [v] first, and writes
    nothing when the conversion throws. *)
Definition set_textContent (el : option string) (v : value) : js unit :=
  match el with
  | None => null_access "textContent"
  | Some id =>
      text ← conversion (nullable_DOMString v) ;
      update id (with_textContent text) ;; log (ASetTextContent id text)
  end.

(** [el.style.color = c]. *)
Definition set_style_color (el : option string) (c : string) : js unit :=
  match el with
  | None => null_access "style"
  | Some id => update id (with_style_color c) ;; log (ASetColor id c)
  end.

(** [fetch(url, init)]: sends the request and returns its promise. *)
Definition fetch (net : network) (url : string) (init : RequestInit)
    : js (promise Response) :=
  log (AFetch url init) ;; mret (net url init).

(** [response.json()]. *)
Definition json (response : Response) : js (promise value) :=
  mret (json_body response).

(** [null] and [undefined] have no properties. *)
Definition nullish (v : value) : bool :=
  match v with
  | VUndefined | VNull => true
  | _ => false
  end.

(** The own property [name] of [v], [undefined] when there is none. *)
Definition own_property (v : value) (name : string) : value :=
  match v with
  | VObject props => default VUndefined (props !! name)
  | _ => VUndefined
  end.

(** [v.name], for the two names the listener reads, [response] and
    [detail].  Neither is defined on a built-in prototype, so the lookup
    finds an own property of an object or nothing; reading a property of
    [null] or [undefined] throws. *)
Definition Get (v : value) (name : string) : js value :=
  if nullish v then
    throw (TypeError ("Cannot read properties of "
                      +:+ (if v is VNull then "null" else "undefined")))
  else mret (own_property v name).

(** [console.error(label, error)]. *)
Definition console_error (label : string) (error : exn) : js unit :=
  log (AConsoleError label error).

(** ** The listener *)

Definition placeholder_text : string :=
  "Mandefa ny fangatahana any amin'ny FastAPI...".
Definition fallback_text : string := "Erreur inconnue du serveur.".
Definition connection_failure_text : string :=
  "Erreur de connexion: Tsy tafiditra tamin'ny serveur backend FastAPI.".

(** The text of the [else] branch: the template literal
    [`ERREUR (${response.status}): ${result.detail || '...'}`], once its
    second substitution has been converted to the string [shown]. *)
Definition error_text (st : N) (shown : string) : string :=
  "ERREUR (" +:+ pretty st +:+ "): " +:+ shown.

(** The function passed to [addEventListener('submit', ...)]. *)
Definition on_submit (net : network) (e : SubmitEvent) : js unit :=
  preventDefault e ;;
  let form := target e in
  formData ← new_FormData form ;
  submitBtn ← getElementById "submit-btn" ;
  loadingIndicator ← getElementById "loading-indicator" ;
  responseOutput ← getElementById "response-output" ;
  set_disabled submitBtn true ;;
  classList_remove loadingIndicator "hidden" ;;
  set_textContent responseOutput (VString placeholder_text) ;;
  set_style_color responseOutput "black" ;;
  try_catch_finally
    (response ← fetch net "/api/process_query"
                  (Init "POST" (BodyFormData formData) None) ≫= await ;
     result ← json response ≫= await ;
     if ok response then
       Get result "response" ≫= set_textContent responseOutput
     else
       detail ← Get result "detail" ;
       shown ← conversion (ToString (logical_or detail (VString fallback_text))) ;
       set_textContent responseOutput
         (VString (error_text (status response) shown)) ;;
       set_style_color responseOutput "red")
    (λ error,
       console_error "Erreur de la requête:" error ;;
       set_textContent responseOutput (VString connection_failure_text) ;;
       set_style_color responseOutput "red")
    (set_disabled submitBtn false ;;
     classList_add loadingIndicator "hidden").

(** One dispatch of the event on a page showing [d]. *)
Definition start (d : document) : world := World d false [] [].

Definition dispatch (net : network) (e : SubmitEvent) (d : document)
    : completion unit * world :=
  on_submit net e (start d).

(** ** What a page shows *)

Definition submit_enabled (d : document) : bool :=
  match d !! "submit-btn" with
  | Some el => negb (disabled el)
  | None => false
  end.

Definition submit_disabled (d : document) : bool :=
  match d !! "submit-btn" with
  | Some el => disabled el
  | None => false
  end.

(** The indicator is shown or hidden by the class [hidden]. *)
Definition loading_hidden (d : document) : bool :=
  match d !! "loading-indicator" with
  | Some el => bool_decide ("hidden" ∈ classList el)
  | None => false
  end.

Definition loading_visible (d : document) : bool :=
  match d !! "loading-indicator" with
  | Some el => bool_decide ("hidden" ∉ classList el)
  | None => false
  end.

Definition busy (d : document) : bool := submit_disabled d && loading_visible d.
Definition idle (d : document) : bool := submit_enabled d && loading_hidden d.

Definition output_text (d : document) : option string :=
  textContent <$> d !! "response-output".
Definition output_color (d : document) : option string :=
  style_color <$> d !! "response-output".

(** The markup the script is written for: the three elements it looks up
    exist. *)
Definition markup (d : document) : Prop :=
  is_Some (d !! "submit-btn") ∧ is_Some (d !! "loading-indicator")
  ∧ is_Some (d !! "response-output").

(** ** What a journal records *)

(** The texts written to the output element, in order. *)
Definition output_writes (j : list action) : list string :=
  omap (λ a, match a with
             | ASetTextContent id text =>
                 if String.eqb id "response-output" then Some text else None
             | _ => None
             end) j.

(** The requests sent. *)
Definition requests (j : list action) : list (string * RequestInit) :=
  omap (λ a, match a with AFetch url init => Some (url, init) | _ => None end) j.

(** The diagnostics written to the console. *)
Definition diagnostics (j : list action) : list (string * exn) :=
  omap (λ a, match a with
             | AConsoleError label error => Some (label, error)
             | _ => None
             end) j.

(** The restore step: the two statements of the [finally] block. *)
Definition is_enable_submit (a : action) : bool :=
  match a with
  | ASetDisabled id false => String.eqb id "submit-btn"
  | _ => false
  end.

Definition is_hide_loading (a : action) : bool :=
  match a with
  | AClassAdd id token => String.eqb id "loading-indicator" && String.eqb token "hidden"
  | _ => false
  end.

Definition times (p : action → bool) (j : list action) : nat :=
  length (List.filter p j).

(** ** Pages visited one submission after the other *)

(** The request the listener sends for the event [e]. *)
Definition request_of (e : SubmitEvent) : RequestInit :=
  Init "POST" (BodyFormData (entry_list (target e))) None.

(** One submission, as a user sees it: the page before the trigger, the
    pages shown while the listener is suspended, the page once it has
    settled. *)
Record submission : Type := Submission {
  before : document;
  during : list document;
  after : document
}.

(** Submissions dispatched one after the other, each on the page the
    previous one left. *)
Fixpoint session (d : document) (subs : list (network * SubmitEvent))
    : list submission :=
  match subs with
  | [] => []
  | (net, e) :: rest =>
      let w := (dispatch net e d).2 in
      Submission d (frames w) (doc w) :: session (doc w) rest
  end.

(** ** The run of the listener, in closed form *)

(** The three ways a run settles: the text of the [if] branch was
    written, the text of the [else] branch was written, or an exception
    reached the [catch] block. *)
Inductive outcome : Type :=
  | Success (text : string)
  | AppError (st : N) (shown : string)
  | ConnectionFailure (error : exn).

(** The two errors the [try] block can throw of its own. *)
Definition no_properties (v : value) : exn :=
  TypeError ("Cannot read properties of "
             +:+ (if v is VNull then "null" else "undefined")).
Definition not_convertible : exn :=
  TypeError "Cannot convert object to primitive value".

(** How the run settles on a response [r] whose body parsed to [v]: the
    property read throws on [null]; the conversion of the [response]
    property, or of the [detail] or its fallback, throws on a value that
    has no string. *)
Definition parsed_outcome (r : Response) (v : value) : outcome :=
  if nullish v then ConnectionFailure (no_properties v)
  else if ok r then
    match nullable_DOMString (own_property v "response") with
    | Some text => Success text
    | None => ConnectionFailure not_convertible
    end
  else
    match ToString (logical_or (own_property v "detail") (VString fallback_text)) with
    | Some shown => AppError (status r) shown
    | None => ConnectionFailure not_convertible
    end.

(** The number of suspensions and the outcome of a run, read off the
    network's answer. *)
Definition suspensions (net : network) (e : SubmitEvent) : nat :=
  match net "/api/process_query" (request_of e) with
  | Rejected _ => 1
  | Fulfilled _ => 2
  end.

Definition settle (net : network) (e : SubmitEvent) : outcome :=
  match net "/api/process_query" (request_of e) with
  | Rejected error => ConnectionFailure error
  | Fulfilled r =>
      match json_body r with
      | Rejected error => ConnectionFailure error
      | Fulfilled v => parsed_outcome r v
      end
  end.

Definition outcome_text (o : outcome) : string :=
  match o with
  | Success text => text
  | AppError st shown => error_text st shown
  | ConnectionFailure _ => connection_failure_text
  end.

Definition outcome_color (o : outcome) : string :=
  match o with
  | Success _ => "black"
  | _ => "red"
  end.

Definition enter_busy (d : document) : document :=
  alter (with_style_color "black") "response-output"
    (alter (with_textContent placeholder_text) "response-output"
       (alter (with_classList (λ c, c ∖ {["hidden"]})) "loading-indicator"
          (alter (with_disabled true) "submit-btn" d))).

Definition render (o : outcome) (d : document) : document :=
  match o with
  | Success text => alter (with_textContent text) "response-output" d
  | _ =>
      alter (with_style_color "red") "response-output"
        (alter (with_textContent (outcome_text o)) "response-output" d)
  end.

Definition leave_busy (d : document) : document :=
  alter (with_classList (λ c, c ∪ {["hidden"]})) "loading-indicator"
    (alter (with_disabled false) "submit-btn" d).

Definition outcome_journal (o : outcome) : list action :=
  match o with
  | Success text => [ASetTextContent "response-output" text]
  | AppError st shown =>
      [ASetTextContent "response-output" (error_text st shown);
       ASetColor "response-output" "red"]
  | ConnectionFailure error =>
      [AConsoleError "Erreur de la requête:" error;
       ASetTextContent "response-output" connection_failure_text;
       ASetColor "response-output" "red"]
  end.

Definition run_journal (e : SubmitEvent) (o : outcome) : list action :=
  [APreventDefault; ANewFormData (entry_list (target e));
   ASetDisabled "submit-btn" true;
   AClassRemove "loading-indicator" "hidden";
   ASetTextContent "response-output" placeholder_text;
   ASetColor "response-output" "black";
   AFetch "/api/process_query" (request_of e)]
  ++ outcome_journal o
  ++ [ASetDisabled "submit-btn" false; AClassAdd "loading-indicator" "hidden"].

(** The page a run leaves. *)
Definition settled (o : outcome) (d : document) : document :=
  leave_busy (render o (enter_busy d)).

(** ** Texts and sample data *)

(** [text] begins with [needle]. *)
Fixpoint starts_with (needle text : string) : bool :=
  match needle, text with
  | EmptyString, _ => true
  | String a needle', String b text' => Ascii.eqb a b && starts_with needle' text'
  | String _ _, EmptyString => false
  end.

(** [needle] occurs somewhere in [text]. *)
Fixpoint contains (needle text : string) : bool :=
  starts_with needle text
  || match text with
     | EmptyString => false
     | String _ rest => contains needle rest
     end.

(** A page with the three elements in their default state, a form with a
    text field and a file, and three kinds of network. *)
Definition sample_page : document :=
  {[ "submit-btn" := Element false ∅ "Alefa" "";
     "loading-indicator" := Element false {["hidden"]} "" "";
     "response-output" := Element false ∅ "" "" ]}.

Definition sample_event : SubmitEvent :=
  Event (Form [("prompt", TextEntry "Inona no vaovao?");
               ("file", FileEntry "data.csv" [])]) true.

(** A backend that answers every request with the same status and body. *)
Definition backend (st : N) (parsed : promise value) : network :=
  λ _ _, Fulfilled (Resp st parsed).

(** A network on which no request gets through. *)
Definition unreachable : network :=
  λ _ _, Rejected (TypeError "Failed to fetch").

(** ** The listener, one turn at a time *)

(** An asynchronous function does not run in one piece: it runs up to an
    [await], gives the control back, and is resumed in a later turn of the
    event loop when the promise has settled.  [await p] is the suspension
    followed, in the next turn, by the outcome of the promise. *)
Definition suspend : js unit := λ w,
  (Normal (), World (doc w) (defaultPrevented w) (journal w) (frames w ++ [doc w])).

Definition outcome_of {A} (p : promise A) : js A :=
  match p with
  | Fulfilled a => mret a
  | Rejected e => throw e
  end.

(** The three references the listener holds across its turns. *)
Record references : Type := References {
  submitBtn : option string;
  loadingIndicator : option string;
  responseOutput : option string
}.

(** A run of the listener between two turns: suspended at the first
    [await], suspended at the second, or finished. *)
Inductive task : Type :=
  | AwaitingResponse (els : references) (p : promise Response)
  | AwaitingBody (els : references) (response : Response) (p : promise value)
  | Finished (c : completion unit).

(** The [catch] block and the [finally] block. *)
Definition catch_block (els : references) (error : exn) : js unit :=
  console_error "Erreur de la requête:" error ;;
  set_textContent (responseOutput els) (VString connection_failure_text) ;;
  set_style_color (responseOutput els) "red".

Definition finally_block (els : references) : js unit :=
  set_disabled (submitBtn els) false ;;
  classList_add (loadingIndicator els) "hidden".

(** The first turn: from the head of the listener to the first [await];
    the request has been handed to [fetch] and the listener is suspended. *)
Definition first_turn (net : network) (e : SubmitEvent) (w : world) : task * world :=
  let prologue : js (references * promise Response) :=
    preventDefault e ;;
    let form := target e in
    formData ← new_FormData form ;
    submitBtn ← getElementById "submit-btn" ;
    loadingIndicator ← getElementById "loading-indicator" ;
    responseOutput ← getElementById "response-output" ;
    set_disabled submitBtn true ;;
    classList_remove loadingIndicator "hidden" ;;
    set_textContent responseOutput (VString placeholder_text) ;;
    set_style_color responseOutput "black" ;;
    p ← fetch net "/api/process_query" (Init "POST" (BodyFormData formData) None) ;
    suspend ;;
    mret (References submitBtn loadingIndicator responseOutput, p) in
  match prologue w with
  | (Normal (els, p), w') => (AwaitingResponse els p, w')
  | (Throw error, w') => (Finished (Throw error), w')
  end.

(** A later turn: the promise the run was waiting for has settled.  After
    the first [await] a response leads to the second [await], and a
    rejection to the [catch] and [finally] blocks; after the second
    [await] the rest of the [try] block runs, then the [finally] block. *)
Definition next_turn (t : task) (w : world) : task * world :=
  match t with
  | AwaitingResponse els (Fulfilled response) =>
      match (json response ≫= λ p, suspend ;; mret p) w with
      | (Normal p, w') => (AwaitingBody els response p, w')
      | (Throw error, w') =>
          let '(c, w'') := try_catch_finally (throw error) (catch_block els)
                             (finally_block els) w' in
          (Finished c, w'')
      end
  | AwaitingResponse els (Rejected error) =>
      let '(c, w') := try_catch_finally (throw error) (catch_block els)
                        (finally_block els) w in
      (Finished c, w')
  | AwaitingBody els response p =>
      let '(c, w') :=
        try_catch_finally
          (result ← outcome_of p ;
           if ok response then
             Get result "response" ≫= set_textContent (responseOutput els)
           else
             detail ← Get result "detail" ;
             shown ← conversion (ToString (logical_or detail (VString fallback_text))) ;
             set_textContent (responseOutput els)
               (VString (error_text (status response) shown)) ;;
             set_style_color (responseOutput els) "red")
          (catch_block els) (finally_block els) w in
      (Finished c, w')
  | Finished c => (Finished c, w)
  end.

(** ** Loading the script, and the browser submitting a form *)

(** A listener registered with [addEventListener]: the id of the element
    it is registered on, the event type and the function.  Calling an
    asynchronous function runs its first turn and returns its promise,
    here the task.  Listeners are kept in the order of their
    registration. *)
Record registration : Type := Registration {
  on_element : string;
  event_type : string;
  callback : network → SubmitEvent → world → task * world
}.

(** The one top-level statement of the script,
    [document.getElementById('gemini-form').addEventListener('submit', ...)],
    evaluated on the document [d] as it stands when the script runs: if
    the form is not there, the method is called on [null] and the script
    throws without registering anything. *)
Definition script (d : document) (registered : list registration)
    : completion unit * list registration :=
  if d !! "gemini-form" is Some _ then
    (Normal (), registered ++ [Registration "gemini-form" "submit" first_turn])
  else
    (Throw (TypeError "Cannot access property 'addEventListener' of null"), registered).

(** What the browser has in hand when the dispatch of a [submit] event
    returns: the runs the listeners started, the state of the page, and
    whether it goes on to the native submission, which navigates away. *)
Record dispatched : Type := Dispatched {
  started : list task;
  page : world;
  navigates : bool
}.

(** The browser submitting the form with the id [id] at the user's
    request: it fires a cancelable [submit] event at the form, which calls
    the listeners registered on the form for this type, in order; unless
    the event comes back canceled, it goes on to the native submission. *)
Definition user_submits (net : network) (registered : list registration)
    (id : string) (form : HTMLFormElement) (d : document) : dispatched :=
  let e := Event form true in
  let '(tasks, w) :=
    foldl (λ '(tasks, w) reg,
             if String.eqb (on_element reg) id
                && String.eqb (event_type reg) "submit"
             then let '(t, w') := callback reg net e w in (tasks ++ [t], w')
             else (tasks, w))
          ([], start d) registered in
  Dispatched tasks w (negb (defaultPrevented w)).

(** Two runs under way on one page, and the turns the event loop gives
    them. *)
Inductive run_id : Type := RunA | RunB.

Record overlap : Type := Overlap {
  taskA : task;
  taskB : task;
  shared : world
}.

Definition turn (s : overlap) (x : run_id) : overlap :=
  match x with
  | RunA => let '(t, w) := next_turn (taskA s) (shared s) in Overlap t (taskB s) w
  | RunB => let '(t, w) := next_turn (taskB s) (shared s) in Overlap (taskA s) t w
  end.

(** The submission [eA] is triggered, then, before anything has come back,
    the submission [eB] (the disabled button being no obstacle to a
    script or to the Enter key in some other control); then the runs are
    resumed in the order of [schedule]. *)
Definition overlapping (netA netB : network) (eA eB : SubmitEvent)
    (d : document) (schedule : list run_id) : overlap :=
  let '(tA, w1) := first_turn netA eA (start d) in
  let '(tB, w2) := first_turn netB eB w1 in
  foldl turn (Overlap tA tB w2) schedule.

Definition is_finished (t : task) : bool :=
  match t with
  | Finished _ => true
  | _ => false
  end.

(** ** A later turn, in closed form *)

(** The references of a run that got past its first turn. *)
Definition held : references :=
  References (Some "submit-btn") (Some "loading-indicator") (Some "response-output").

Definition holds_elements (t : task) : Prop :=
  match t with
  | AwaitingResponse els _ | AwaitingBody els _ _ => els = held
  | Finished _ => True
  end.

(** How a run settles once the promise of [json()] has settled. *)
Definition body_outcome (r : Response) (p : promise value) : outcome :=
  match p with
  | Rejected error => ConnectionFailure error
  | Fulfilled v => parsed_outcome r v
  end.

Definition restore_journal : list action :=
  [ASetDisabled "submit-btn" false; AClassAdd "loading-indicator" "hidden"].

Definition task_after (t : task) : task :=
  match t with
  | AwaitingResponse els (Fulfilled r) => AwaitingBody els r (json_body r)
  | AwaitingResponse _ (Rejected _) | AwaitingBody _ _ _ => Finished (Normal ())
  | Finished c => Finished c
  end.

Definition doc_after (t : task) (d : document) : document :=
  match t with
  | AwaitingResponse _ (Fulfilled _) | Finished _ => d
  | AwaitingResponse _ (Rejected error) =>
      leave_busy (render (ConnectionFailure error) d)
  | AwaitingBody _ r p => leave_busy (render (body_outcome r p) d)
  end.

Definition journal_after (t : task) : list action :=
  match t with
  | AwaitingResponse _ (Fulfilled _) | Finished _ => []
  | AwaitingResponse _ (Rejected error) =>
      outcome_journal (ConnectionFailure error) ++ restore_journal
  | AwaitingBody _ r p => outcome_journal (body_outcome r p) ++ restore_journal
  end.

Definition frames_after (t : task) (d : document) : list document :=
  match t with
  | AwaitingResponse _ (Fulfilled _) => [d]
  | _ => []
  end.

Definition entry_journal (e : SubmitEvent) : list action :=
  [APreventDefault; ANewFormData (entry_list (target e));
   ASetDisabled "submit-btn" true;
   AClassRemove "loading-indicator" "hidden";
   ASetTextContent "response-output" placeholder_text;
   ASetColor "response-output" "black";
   AFetch "/api/process_query" (request_of e)].

(** What every turn of two overlapping runs keeps. *)
Definition overlap_invariant (requested : list (string * RequestInit))
    (s : overlap) : Prop :=
  holds_elements (taskA s) ∧ holds_elements (taskB s)
  ∧ is_Some (doc (shared s) !! "submit-btn")
  ∧ is_Some (doc (shared s) !! "loading-indicator")
  ∧ requests (journal (shared s)) = requested
  ∧ (is_finished (taskA s) || is_finished (taskB s) = true →
     idle (doc (shared s)) = true).

(** ** Which of two overlapping runs finished last *)

(** The two runs once both have taken their first turn. *)
Definition both_started (netA netB : network) (eA eB : SubmitEvent)
    (d : document) : overlap :=
  let '(tA, w1) := first_turn netA eA (start d) in
  let '(tB, w2) := first_turn netB eB w1 in
  Overlap tA tB w2.

Definition task_of (s : overlap) (x : run_id) : task :=
  match x with
  | RunA => taskA s
  | RunB => taskB s
  end.

(** The run that was the last to finish in the course of [schedule], if
    one has; [last] is the run that had finished last before.  A turn
    finishes the run it is given to when the run was not finished before
    the turn and is after it. *)
Fixpoint last_finished (s : overlap) (schedule : list run_id)
    (last : option run_id) : option run_id :=
  match schedule with
  | [] => last
  | x :: rest =>
      let s' := turn s x in
      last_finished s' rest
        (if negb (is_finished (task_of s x)) && is_finished (task_of s' x)
         then Some x else last)
  end.

(** A run that ended in the [catch] block or with an error response. *)
Definition fails (o : outcome) : bool :=
  match o with
  | Success _ => false
  | _ => true
  end.

(** A task of the run that the network [net] answers for the event [e]. *)
Definition run_state (net : network) (e : SubmitEvent) (t : task) : Prop :=
  match t with
  | AwaitingResponse els p =>
      els = held ∧ p = net "/api/process_query" (request_of e)
  | AwaitingBody els r p =>
      els = held ∧ net "/api/process_query" (request_of e) = Fulfilled r
      ∧ p = json_body r
  | Finished _ => True
  end.

(** What the output shows in the course of two overlapping runs: the
    text of the run that finished last, and red as soon as a run that
    failed has finished. *)
Definition output_invariant (netA netB : network) (eA eB : SubmitEvent)
    (s : overlap) (last : option run_id) : Prop :=
  run_state netA eA (taskA s) ∧ run_state netB eB (taskB s)
  ∧ markup (doc (shared s))
  ∧ output_text (doc (shared s))
    = Some (match last with
            | Some RunA => outcome_text (settle netA eA)
            | Some RunB => outcome_text (settle netB eB)
            | None => placeholder_text
            end)
  ∧ output_color (doc (shared s))
    = Some (if is_finished (taskA s) && fails (settle netA eA)
               || is_finished (taskB s) && fails (settle netB eB)
            then "red" else "black").

(** * Properties *)

(** ** Tactics *)

(** Runs the monadic code of the listener on the state at hand. *)
Ltac unfold_js :=
  repeat (unfold mbind, js_bind, mret, js_ret, preventDefault, new_FormData,
            getElementById, set_disabled, classList_remove, classList_add,
            set_textContent, set_style_color, try_catch_finally, fetch, await,
            json, Get, console_error, null_access, log, update, throw, conversion;
          change (nullable_DOMString (VString ?s)) with (Some s);
          cbn -[alter lookup nullable_DOMString ToString]).

(** Pushes a lookup through the writes of the listener. *)
Ltac through_writes :=
  unfold enter_busy, leave_busy;
  repeat first [ rewrite lookup_alter_eq | rewrite lookup_alter_ne by done ].

(** Finds the three elements of a concrete page. *)
Ltac markup_by_lookup := repeat split; eexists; reflexivity.

(** ** The closed form is the run *)

Lemma dispatch_closed_form (net : network) (e : SubmitEvent) (d : document) :
  markup d →
  dispatch net e d =
    (Normal (),
     World (leave_busy (render (settle net e) (enter_busy d)))
           (cancelable e)
           (run_journal e (settle net e))
           (replicate (suspensions net e) (enter_busy d))).
Proof.
  intros ([b Hb] & [l Hl] & [o Ho]).
  unfold dispatch, on_submit, start, settle, suspensions, request_of.
  unfold_js. rewrite Hb, Hl, Ho. unfold_js.
  destruct (net _ _) as [r|error]; unfold_js; [|done].
  destruct (json_body r) as [v|error]; unfold_js; [|done].
  unfold parsed_outcome.
  destruct (ok r), (nullish v); unfold_js; try done.
  - by destruct (nullable_DOMString (own_property v "response")); unfold_js.
  - by destruct (ToString (logical_or (own_property v "detail") (VString fallback_text)));
      unfold_js.
Qed.

(** ** Reading a page after the listener's writes *)

Lemma render_response_output (o : outcome) (d : document) (el : element) :
  d !! "response-output" = Some el →
  style_color el = "black" →
  render o d !! "response-output"
  = Some (Element (disabled el) (classList el) (outcome_text o) (outcome_color o)).
Proof.
  intros Hel Hcolor. destruct o; unfold render; through_writes;
    rewrite Hel; cbn; by rewrite <- ?Hcolor.
Qed.

Lemma busy_enter_busy (d : document) : markup d → busy (enter_busy d) = true.
Proof.
  intros ([b Hb] & [l Hl] & _). unfold busy, submit_disabled, loading_visible.
  through_writes. rewrite Hb, Hl. cbn.
  apply bool_decide_eq_true. intros [_ Hin]%elem_of_difference.
  apply Hin. by apply elem_of_singleton.
Qed.

Lemma idle_leave_busy (d : document) :
  is_Some (d !! "submit-btn") → is_Some (d !! "loading-indicator") →
  idle (leave_busy d) = true.
Proof.
  intros [b Hb] [l Hl]. unfold idle, submit_enabled, loading_hidden.
  through_writes. rewrite Hb, Hl. cbn.
  apply bool_decide_eq_true, elem_of_union_r. by apply elem_of_singleton.
Qed.

Lemma markup_enter_busy (d : document) : markup d → markup (enter_busy d).
Proof.
  unfold markup, enter_busy. by rewrite !lookup_alter_is_Some.
Qed.

Lemma markup_render (o : outcome) (d : document) : markup d → markup (render o d).
Proof.
  unfold markup. destruct o; unfold render; by rewrite !lookup_alter_is_Some.
Qed.

Lemma markup_leave_busy (d : document) : markup d → markup (leave_busy d).
Proof.
  unfold markup, leave_busy. by rewrite !lookup_alter_is_Some.
Qed.

Lemma settled_idle (o : outcome) (d : document) :
  markup d → idle (settled o d) = true.
Proof.
  intros Hd. pose proof (markup_render o _ (markup_enter_busy _ Hd)) as (? & ? & _).
  by apply idle_leave_busy.
Qed.

Lemma settled_output (o : outcome) (d : document) :
  markup d →
  output_text (settled o d) = Some (outcome_text o)
  ∧ output_color (settled o d) = Some (outcome_color o).
Proof.
  intros (_ & _ & [el Hel]). unfold output_text, output_color, settled.
  assert (leave_busy (render o (enter_busy d)) !! "response-output"
          = render o (enter_busy d) !! "response-output") as ->
    by (by through_writes).
  erewrite render_response_output;
    [done | through_writes; by rewrite Hel | done].
Qed.

(** With the markup in place a run completes normally, whatever the
    network answers. *)
Lemma dispatch_world (net : network) (e : SubmitEvent) (d : document) :
  markup d →
  (dispatch net e d).1 = Normal ()
  ∧ doc (dispatch net e d).2 = settled (settle net e) d
  ∧ defaultPrevented (dispatch net e d).2 = cancelable e
  ∧ journal (dispatch net e d).2 = run_journal e (settle net e)
  ∧ frames (dispatch net e d).2 = replicate (suspensions net e) (enter_busy d).
Proof. intros Hd. by rewrite dispatch_closed_form. Qed.

Lemma settled_markup (o : outcome) (d : document) : markup d → markup (settled o d).
Proof.
  intros Hd. by apply markup_leave_busy, markup_render, markup_enter_busy.
Qed.

Lemma idle_split (d : document) :
  idle d = true → submit_enabled d = true ∧ loading_hidden d = true.
Proof. unfold idle. by intros [? ?]%andb_true_iff. Qed.

(** ** The three texts are told apart *)

Lemma append_assoc (a b c : string) : (a +:+ b) +:+ c = a +:+ b +:+ c.
Proof.
  induction a as [|ch a IH]; [done|].
  change (String ch ((a +:+ b) +:+ c) = String ch (a +:+ b +:+ c)).
  by rewrite IH.
Qed.

Lemma append_empty_r (a : string) : a +:+ "" = a.
Proof.
  induction a as [|ch a IH]; [done|].
  change (String ch (a +:+ "") = String ch a). by rewrite IH.
Qed.

Lemma starts_with_append (needle post : string) :
  starts_with needle (needle +:+ post) = true.
Proof.
  induction needle as [|ch needle IH]; [done|].
  change (Ascii.eqb ch ch && starts_with needle (needle +:+ post) = true).
  by rewrite Ascii.eqb_refl, IH.
Qed.

Lemma contains_append (needle pre post : string) :
  contains needle (pre +:+ needle +:+ post) = true.
Proof.
  induction pre as [|ch pre IH].
  - change (contains needle (needle +:+ post) = true).
    pose proof (starts_with_append needle post) as Hstart.
    destruct (needle +:+ post); cbn [contains]; by rewrite Hstart.
  - change (starts_with needle (String ch (pre +:+ needle +:+ post))
            || contains needle (pre +:+ needle +:+ post) = true).
    rewrite IH. apply orb_true_r.
Qed.

Lemma contains_end (needle pre : string) : contains needle (pre +:+ needle) = true.
Proof. rewrite <- (append_empty_r needle) at 2. apply contains_append. Qed.

Lemma error_text_not_placeholder (st : N) (shown : string) :
  error_text st shown ≠ placeholder_text.
Proof. unfold error_text, placeholder_text. cbn. discriminate. Qed.

Lemma error_text_not_connection_failure (st : N) (shown : string) :
  error_text st shown ≠ connection_failure_text.
Proof. unfold error_text, connection_failure_text. cbn. discriminate. Qed.

Lemma connection_failure_not_placeholder :
  connection_failure_text ≠ placeholder_text.
Proof. discriminate. Qed.

(** What [settle] yields, by the network's answer. *)
Lemma settle_rejected (net : network) (e : SubmitEvent) (error : exn) :
  net "/api/process_query" (request_of e) = Rejected error →
  settle net e = ConnectionFailure error.
Proof. unfold settle. by intros ->. Qed.

Lemma settle_unparsed (net : network) (e : SubmitEvent) (r : Response) (error : exn) :
  net "/api/process_query" (request_of e) = Fulfilled r →
  json_body r = Rejected error →
  settle net e = ConnectionFailure error.
Proof. unfold settle. by intros -> ->. Qed.

Lemma settle_parsed (net : network) (e : SubmitEvent) (r : Response) (v : value) :
  net "/api/process_query" (request_of e) = Fulfilled r →
  json_body r = Fulfilled v →
  settle net e = parsed_outcome r v.
Proof. unfold settle. by intros -> ->. Qed.

(** * The claims *)

(** C1.  Whatever the network answers (a 2xx response, another response,
    a rejection or an exception on the way), the run completes, the
    submit button is enabled and the loading indicator hidden once it has
    settled, and the restore step is the last thing the run does and is
    done exactly once: one write enabling the button and one adding the
    class [hidden]. *)
Theorem ui_reset_exactly_once (net : network) (e : SubmitEvent) (d : document) :
  markup d →
  let w := (dispatch net e d).2 in
  (dispatch net e d).1 = Normal ()
  ∧ submit_enabled (doc w) = true
  ∧ loading_hidden (doc w) = true
  ∧ times is_enable_submit (journal w) = 1
  ∧ times is_hide_loading (journal w) = 1
  ∧ ∃ j, journal w = j ++ [ASetDisabled "submit-btn" false;
                           AClassAdd "loading-indicator" "hidden"].
Proof.
  intros Hd w. subst w.
  destruct (dispatch_world net e d Hd) as (-> & -> & _ & -> & _).
  destruct (idle_split _ (settled_idle (settle net e) d Hd)) as [-> ->].
  repeat split.
  - by destruct (settle net e).
  - by destruct (settle net e).
  - unfold run_journal. rewrite app_assoc. by eexists.
Qed.

Lemma ui_reset_exactly_once_witness :
  markup sample_page
  ∧ let w := (dispatch unreachable sample_event sample_page).2 in
    (dispatch unreachable sample_event sample_page).1 = Normal ()
    ∧ submit_enabled (doc w) = true
    ∧ loading_hidden (doc w) = true
    ∧ times is_enable_submit (journal w) = 1
    ∧ times is_hide_loading (journal w) = 1
    ∧ ∃ j, journal w = j ++ [ASetDisabled "submit-btn" false;
                             AClassAdd "loading-indicator" "hidden"].
Proof.
  assert (markup sample_page) as Hd by markup_by_lookup.
  split; [exact Hd | exact (ui_reset_exactly_once unreachable sample_event sample_page Hd)].
Defined.

(** C2, as claimed, fails: on status 200 with the body
    [{"response": "Mandefa ny fangatahana any amin'ny FastAPI..."}] the
    run settles with the output showing the very words of the
    placeholder. *)
Lemma placeholder_echoed :
  let net := backend 200 (Fulfilled (VObject {["response" := VString placeholder_text]})) in
  let w := (dispatch net sample_event sample_page).2 in
  markup sample_page
  ∧ (dispatch net sample_event sample_page).1 = Normal ()
  ∧ idle (doc w) = true
  ∧ output_text (doc w) = Some placeholder_text.
Proof.
  intros net w. split; [markup_by_lookup|]. by vm_compute.
Qed.

(** C2, amended.  Once a run has settled, the output text has been
    written exactly twice, the placeholder first and then the text of
    exactly one outcome, which is the text the element shows.  Either a
    response with a status in the range 200 to 299 was parsed and its
    [response] property converted: the text is that property as
    rendered, in black, and nothing went to the console.  Or a response
    with another status was parsed and its [detail] (or the fallback)
    converted: the text is the status-code text, in red, nothing went to
    the console, and the text differs from the placeholder and from the
    failure message.  Or an exception reached the [catch] block: the
    text is the connection-failure message, in red, it differs from the
    placeholder, and the console got one record.  The three cases
    exclude one another; only in the first can the text be the wording
    of the placeholder or of another outcome, namely when the server
    sent that wording as its [response]. *)
Theorem exclusive_outcome (net : network) (e : SubmitEvent) (d : document) :
  markup d →
  let w := (dispatch net e d).2 in
  ∃ t,
    output_writes (journal w) = [placeholder_text; t]
    ∧ output_text (doc w) = Some t
    ∧ ((∃ r v, net "/api/process_query" (request_of e) = Fulfilled r
               ∧ ok r = true
               ∧ json_body r = Fulfilled v ∧ nullish v = false
               ∧ nullable_DOMString (own_property v "response") = Some t
               ∧ output_color (doc w) = Some "black"
               ∧ diagnostics (journal w) = [])
       ∨ (∃ r v shown, net "/api/process_query" (request_of e) = Fulfilled r
                       ∧ ok r = false
                       ∧ json_body r = Fulfilled v ∧ nullish v = false
                       ∧ ToString (logical_or (own_property v "detail")
                                     (VString fallback_text)) = Some shown
                       ∧ t = "ERREUR (" +:+ pretty (status r) +:+ "): " +:+ shown
                       ∧ output_color (doc w) = Some "red"
                       ∧ diagnostics (journal w) = []
                       ∧ t ≠ placeholder_text ∧ t ≠ connection_failure_text)
       ∨ (t = connection_failure_text
          ∧ output_color (doc w) = Some "red"
          ∧ t ≠ placeholder_text
          ∧ ∃ error, diagnostics (journal w) = [("Erreur de la requête:", error)])).
Proof.
  intros Hd w. subst w.
  destruct (dispatch_world net e d Hd) as (_ & -> & _ & -> & _).
  destruct (settled_output (settle net e) d Hd) as [-> ->].
  exists (outcome_text (settle net e)).
  split; [by destruct (settle net e)|]. split; [done|].
  assert (∀ error, settle net e = ConnectionFailure error →
            outcome_text (settle net e) = connection_failure_text
            ∧ Some (outcome_color (settle net e)) = Some "red"
            ∧ outcome_text (settle net e) ≠ placeholder_text
            ∧ ∃ error', diagnostics (run_journal e (settle net e))
                        = [("Erreur de la requête:", error')]) as Hcaught.
  { intros error ->. cbn. repeat split; [discriminate | by eexists]. }
  destruct (net "/api/process_query" (request_of e)) as [r|error] eqn:Hnet.
  2: { right; right. apply (Hcaught error). unfold settle. by rewrite Hnet. }
  destruct (json_body r) as [v|error] eqn:Hjson.
  2: { right; right. apply (Hcaught error). unfold settle. by rewrite Hnet, Hjson. }
  assert (settle net e = parsed_outcome r v) as Hsettle
    by (unfold settle; by rewrite Hnet, Hjson).
  unfold parsed_outcome in Hsettle.
  destruct (nullish v) eqn:Hv; [right; right; by apply (Hcaught _ Hsettle)|].
  destruct (ok r) eqn:Hok.
  - destruct (nullable_DOMString (own_property v "response")) as [text|] eqn:Htext;
      [|right; right; by apply (Hcaught _ Hsettle)].
    left. exists r, v. rewrite Hsettle. by cbn.
  - destruct (ToString (logical_or (own_property v "detail") (VString fallback_text)))
      as [shown|] eqn:Hshown; [|right; right; by apply (Hcaught _ Hsettle)].
    right; left. exists r, v, shown. rewrite Hsettle. cbn.
    repeat split;
      first [ done | apply error_text_not_placeholder
            | apply error_text_not_connection_failure ].
Qed.

Lemma exclusive_outcome_witness :
  markup sample_page
  ∧ let net := backend 200 (Fulfilled (VObject {["response" := VString "OK-42"]})) in
    let w := (dispatch net sample_event sample_page).2 in
    output_writes (journal w) = [placeholder_text; "OK-42"]
    ∧ output_text (doc w) = Some "OK-42"
    ∧ output_color (doc w) = Some "black"
    ∧ diagnostics (journal w) = [].
Proof.
  assert (markup sample_page) as Hd by markup_by_lookup.
  split; [exact Hd|]. intros net w.
  destruct (exclusive_outcome net sample_event sample_page Hd)
    as (t & Hwrites & Htext & Hcases).
  assert (Some t = Some "OK-42") as [= ->] by (rewrite <- Htext; reflexivity).
  split; [exact Hwrites|]. split; [exact Htext|]. split; reflexivity.
Defined.

(** C3.  Submissions dispatched one after the other on a page that starts
    in its default state: before each trigger the page is idle (button
    enabled, indicator hidden); every page shown while the listener is
    suspended, from the trigger to the settlement, is busy (button
    disabled, indicator visible), and there is at least one; after each
    settlement the page is idle again, however the run ended. *)
Theorem busy_window (d : document) (subs : list (network * SubmitEvent)) :
  markup d →
  idle d = true →
  Forall (λ s, idle (before s) = true
               ∧ during s ≠ []
               ∧ Forall (λ page, busy page = true) (during s)
               ∧ idle (after s) = true)
         (session d subs).
Proof.
  revert d. induction subs as [|[net e] subs IH]; intros d Hd Hidle; cbn [session].
  - constructor.
  - destruct (dispatch_world net e d Hd) as (_ & -> & _ & _ & ->).
    constructor.
    + cbn. repeat split.
      * done.
      * unfold suspensions. by destruct (net _ _).
      * by apply Forall_replicate, busy_enter_busy.
      * by apply settled_idle.
    + apply IH; [by apply settled_markup | by apply settled_idle].
Qed.

Lemma busy_window_witness :
  markup sample_page ∧ idle sample_page = true
  ∧ Forall (λ s, idle (before s) = true
                 ∧ during s ≠ []
                 ∧ Forall (λ page, busy page = true) (during s)
                 ∧ idle (after s) = true)
           (session sample_page
              [(backend 200 (Fulfilled (VObject {["response" := VString "OK-42"]})),
                sample_event);
               (unreachable, sample_event);
               (backend 500 (Rejected (SyntaxError "Unexpected token <")),
                sample_event)]).
Proof.
  assert (markup sample_page) as Hd by markup_by_lookup.
  split; [exact Hd|]. split; [reflexivity|].
  exact (busy_window sample_page _ Hd eq_refl).
Defined.

(** C4, as claimed, fails: on status 200 with the body
    [{"response": {"toString": 1}}] the [response] property is there, but
    it cannot be converted to a string; the setter of [textContent]
    throws inside the [try] block, and the output shows the
    connection-failure message in red. *)
Lemma unconvertible_response_fails :
  let field := VObject {["toString" := VNumber "1"]} in
  let r := Resp 200 (Fulfilled (VObject {["response" := field]})) in
  let w := (dispatch (backend 200 (json_body r)) sample_event sample_page).2 in
  markup sample_page
  ∧ ok r = true
  ∧ own_property (VObject {["response" := field]}) "response" = field
  ∧ output_text (doc w) = Some connection_failure_text
  ∧ output_color (doc w) = Some "red".
Proof.
  intros field r w. split; [markup_by_lookup|]. by vm_compute.
Qed.

(** C4, amended.  A response with a status in the range 200 to 299 whose
    body parses to an object with a [response] property.  If the
    property can be converted to a string, as every string, number,
    boolean and [null] can, the output text is the property as the
    [textContent] setter renders it, which for a string is the string
    itself, and the output colour is still the neutral one written on
    entering the busy state.  If it cannot, the setter throws and the
    output shows the connection-failure message in red. *)
Theorem success_mapping (net : network) (e : SubmitEvent) (d : document)
    (r : Response) (props : gmap string value) (field : value) :
  markup d →
  net "/api/process_query" (request_of e) = Fulfilled r →
  ok r = true →
  json_body r = Fulfilled (VObject props) →
  props !! "response" = Some field →
  let w := (dispatch net e d).2 in
  match nullable_DOMString field with
  | Some text =>
      output_text (doc w) = Some text ∧ output_color (doc w) = Some "black"
  | None =>
      output_text (doc w) = Some connection_failure_text
      ∧ output_color (doc w) = Some "red"
  end
  ∧ (∀ s, field = VString s →
          output_text (doc w) = Some s ∧ output_color (doc w) = Some "black").
Proof.
  intros Hd Hnet Hok Hjson Hfield w. subst w.
  destruct (dispatch_world net e d Hd) as (_ & -> & _).
  destruct (settled_output (settle net e) d Hd) as [-> ->].
  rewrite (settle_parsed net e r _ Hnet Hjson). unfold parsed_outcome.
  rewrite Hok. cbn [nullish own_property]. rewrite Hfield. cbn [default id].
  split; [by destruct (nullable_DOMString field)|].
  by intros s ->.
Qed.

(** Status 200 with the body [{"response":"OK-42"}]. *)
Lemma success_mapping_witness :
  let net := backend 200 (Fulfilled (VObject {["response" := VString "OK-42"]})) in
  let w := (dispatch net sample_event sample_page).2 in
  markup sample_page
  ∧ output_text (doc w) = Some "OK-42"
  ∧ output_color (doc w) = Some "black".
Proof.
  intros net w.
  assert (markup sample_page) as Hd by markup_by_lookup.
  destruct (success_mapping net sample_event sample_page
              (Resp 200 (Fulfilled (VObject {["response" := VString "OK-42"]})))
              {["response" := VString "OK-42"]} (VString "OK-42")
              Hd eq_refl eq_refl eq_refl eq_refl) as [_ Hstring].
  split; [exact Hd | exact (Hstring "OK-42" eq_refl)].
Defined.

(** C5, as claimed, fails: the body [null] is JSON and parses, but on
    status 500 with that body the output shows the connection-failure
    message, which contains neither the status code nor the fallback
    phrase.  Reading [result.detail] throws, and the [catch] block takes
    over. *)
Lemma null_body_not_structured :
  let r := Resp 500 (Fulfilled VNull) in
  let w := (dispatch (backend 500 (Fulfilled VNull)) sample_event sample_page).2 in
  markup sample_page
  ∧ ok r = false
  ∧ json_body r = Fulfilled VNull
  ∧ output_text (doc w) = Some connection_failure_text
  ∧ contains "500" connection_failure_text = false
  ∧ contains fallback_text connection_failure_text = false.
Proof.
  intros r w. split; [markup_by_lookup|].
  split; [reflexivity|]. split; [reflexivity|].
  split; [by vm_compute|]. split; by vm_compute.
Qed.

(** C5, amended.  A response with a status outside the range 200 to 299
    whose body parses: the output colour is red.  If the parsed body is
    [null], or if its [detail] is truthy and cannot be converted to a
    string, an exception is thrown inside the [try] block and the output
    text is the connection-failure message.  Otherwise the output text
    is the template of the [else] branch: the status code in decimal
    between ["ERREUR ("] and ["): "], followed by the [detail] as
    [ToString] renders it when the [detail] is truthy, whatever its type
    (a non-empty string is shown as it is), and by the fallback phrase
    when the [detail] is missing or falsy (the empty string, zero,
    [false], [null]). *)
Theorem error_mapping (net : network) (e : SubmitEvent) (d : document)
    (r : Response) (v : value) :
  markup d →
  net "/api/process_query" (request_of e) = Fulfilled r →
  ok r = false →
  json_body r = Fulfilled v →
  let w := (dispatch net e d).2 in
  let detail := own_property v "detail" in
  ∃ t,
    output_text (doc w) = Some t
    ∧ output_color (doc w) = Some "red"
    ∧ (if nullish v then t = connection_failure_text
       else
         match ToString (logical_or detail (VString fallback_text)) with
         | Some shown =>
             t = "ERREUR (" +:+ pretty (status r) +:+ "): " +:+ shown
             ∧ contains (pretty (status r)) t = true
             ∧ contains shown t = true
         | None => t = connection_failure_text
         end)
    ∧ (nullish v = false → ToBoolean detail = false →
       t = "ERREUR (" +:+ pretty (status r) +:+ "): " +:+ fallback_text)
    ∧ (nullish v = false → ToBoolean detail = true →
       ∀ shown, ToString detail = Some shown →
                t = "ERREUR (" +:+ pretty (status r) +:+ "): " +:+ shown)
    ∧ (nullish v = false → ∀ s, detail = VString s → s ≠ "" →
       t = "ERREUR (" +:+ pretty (status r) +:+ "): " +:+ s).
Proof.
  intros Hd Hnet Hok Hjson w detail. subst w.
  destruct (dispatch_world net e d Hd) as (_ & -> & _).
  destruct (settled_output (settle net e) d Hd) as [-> ->].
  rewrite (settle_parsed net e r v Hnet Hjson). unfold parsed_outcome.
  rewrite Hok. fold detail.
  destruct (nullish v); [by eexists|].
  assert (∀ tail, contains tail ("ERREUR (" +:+ pretty (status r) +:+ "): " +:+ tail) = true)
    as Htail.
  { intros tail. rewrite <- !append_assoc. apply contains_end. }
  unfold logical_or.
  destruct (ToBoolean detail) eqn:Htruthy.
  - destruct (ToString detail) as [shown|] eqn:Hshown; cbn [outcome_text outcome_color].
    + eexists. split; [done|]. split; [done|]. unfold error_text.
      split; [|split; [done|split]].
      * split; [done|]. split; [apply (contains_append _ "ERREUR (") | apply Htail].
      * by intros _ _ shown' [= <-].
      * intros _ s Hs _. rewrite Hs in Hshown. by injection Hshown as <-.
    + eexists. split; [done|]. split; [done|]. split; [done|].
      split; [done|]. split; [by intros _ _ shown' [=]|].
      intros _ s Hs _. rewrite Hs in Hshown. discriminate Hshown.
  - cbn [ToString outcome_text outcome_color]. unfold error_text.
    eexists. split; [done|]. split; [done|]. split; [|split; [done|split; [done|]]].
    + split; [done|]. split; [apply (contains_append _ "ERREUR (") | apply Htail].
    + intros _ s Hs Hne. rewrite Hs in Htruthy. cbn in Htruthy.
      destruct (String.eqb_spec s ""); [done | discriminate Htruthy].
Qed.

(** Status 422 with the body [{"detail":"Invalid file type"}]. *)
Lemma error_mapping_witness :
  let net := backend 422 (Fulfilled (VObject {["detail" := VString "Invalid file type"]})) in
  let w := (dispatch net sample_event sample_page).2 in
  markup sample_page
  ∧ output_text (doc w) = Some "ERREUR (422): Invalid file type"
  ∧ output_color (doc w) = Some "red"
  ∧ contains "422" "ERREUR (422): Invalid file type" = true
  ∧ contains "Invalid file type" "ERREUR (422): Invalid file type" = true.
Proof.
  intros net w.
  assert (markup sample_page) as Hd by markup_by_lookup.
  destruct (error_mapping net sample_event sample_page
              (Resp 422 (Fulfilled (VObject {["detail" := VString "Invalid file type"]})))
              (VObject {["detail" := VString "Invalid file type"]})
              Hd eq_refl eq_refl eq_refl)
    as (t & Htext & Hcolor & (Ht & Hstatus & Hdetail) & _).
  subst t. split; [exact Hd|].
  split; [exact Htext|]. split; [exact Hcolor|]. split; [exact Hstatus | exact Hdetail].
Defined.

(** Status 500 with the body [{}]: the status code and the fallback
    phrase.  Status 422 with the numeric detail [5], and with a detail
    that has no string. *)
Example error_fallback_500 :
  let w := (dispatch (backend 500 (Fulfilled (VObject ∅))) sample_event sample_page).2 in
  output_text (doc w) = Some "ERREUR (500): Erreur inconnue du serveur."
  ∧ output_color (doc w) = Some "red".
Proof. by vm_compute. Qed.

Example error_detail_number :
  let body := VObject {["detail" := VNumber "5"]} in
  let w := (dispatch (backend 422 (Fulfilled body)) sample_event sample_page).2 in
  output_text (doc w) = Some "ERREUR (422): 5" ∧ output_color (doc w) = Some "red".
Proof. by vm_compute. Qed.

Example error_detail_unconvertible :
  let body := VObject {["detail" := VObject {["toString" := VNumber "1"]}]} in
  let w := (dispatch (backend 422 (Fulfilled body)) sample_event sample_page).2 in
  output_text (doc w) = Some connection_failure_text
  ∧ output_color (doc w) = Some "red".
Proof. by vm_compute. Qed.

(** C6.  The promise of [fetch] is rejected, so that no response is ever
    received: the output text is the fixed connection-failure message,
    the output colour is red, and the busy state is cleared all the same
    (button enabled, indicator hidden). *)
Theorem transport_failure (net : network) (e : SubmitEvent) (d : document)
    (error : exn) :
  markup d →
  net "/api/process_query" (request_of e) = Rejected error →
  let w := (dispatch net e d).2 in
  (dispatch net e d).1 = Normal ()
  ∧ output_text (doc w) = Some connection_failure_text
  ∧ output_color (doc w) = Some "red"
  ∧ submit_enabled (doc w) = true
  ∧ loading_hidden (doc w) = true.
Proof.
  intros Hd Hnet w. subst w.
  destruct (dispatch_world net e d Hd) as (-> & -> & _).
  destruct (settled_output (settle net e) d Hd) as [-> ->].
  destruct (idle_split _ (settled_idle (settle net e) d Hd)) as [-> ->].
  by rewrite (settle_rejected net e error Hnet).
Qed.

Lemma transport_failure_witness :
  let w := (dispatch unreachable sample_event sample_page).2 in
  markup sample_page
  ∧ (dispatch unreachable sample_event sample_page).1 = Normal ()
  ∧ output_text (doc w) = Some connection_failure_text
  ∧ output_color (doc w) = Some "red"
  ∧ submit_enabled (doc w) = true
  ∧ loading_hidden (doc w) = true.
Proof.
  intros w.
  assert (markup sample_page) as Hd by markup_by_lookup.
  split; [exact Hd|].
  exact (transport_failure unreachable sample_event sample_page
           (TypeError "Failed to fetch") Hd eq_refl).
Defined.

(** C7.  A failure anywhere from the sending of the request to the
    parsing of the body, be it the rejection of [fetch] or a response, of
    whatever status, whose [json()] is rejected: the output text is the
    fixed connection-failure message and the colour red; the failure is
    written to the console once, with the script's label, and does not
    stop the run, which completes and leaves the page idle.  The only
    texts written are the placeholder and the failure message: no
    status-code text is ever shown, the body being parsed before the
    status is looked at. *)
Theorem send_or_parse_failure (net : network) (e : SubmitEvent) (d : document)
    (error : exn) :
  markup d →
  (net "/api/process_query" (request_of e) = Rejected error
   ∨ ∃ r, net "/api/process_query" (request_of e) = Fulfilled r
          ∧ json_body r = Rejected error) →
  let w := (dispatch net e d).2 in
  output_text (doc w) = Some connection_failure_text
  ∧ output_color (doc w) = Some "red"
  ∧ diagnostics (journal w) = [("Erreur de la requête:", error)]
  ∧ output_writes (journal w) = [placeholder_text; connection_failure_text]
  ∧ (dispatch net e d).1 = Normal ()
  ∧ idle (doc w) = true.
Proof.
  intros Hd Hfail w. subst w.
  assert (settle net e = ConnectionFailure error) as Hsettle.
  { destruct Hfail as [Hnet|(r & Hnet & Hjson)];
      eauto using settle_rejected, settle_unparsed. }
  destruct (dispatch_world net e d Hd) as (-> & -> & _ & -> & _).
  destruct (settled_output (settle net e) d Hd) as [-> ->].
  rewrite (settled_idle (settle net e) d Hd), Hsettle. done.
Qed.

(** Status 500 with an HTML body, which is not JSON. *)
Lemma send_or_parse_failure_witness :
  let error := SyntaxError "Unexpected token '<'" in
  let net := backend 500 (Rejected error) in
  let w := (dispatch net sample_event sample_page).2 in
  markup sample_page
  ∧ output_text (doc w) = Some connection_failure_text
  ∧ output_color (doc w) = Some "red"
  ∧ diagnostics (journal w) = [("Erreur de la requête:", error)]
  ∧ output_writes (journal w) = [placeholder_text; connection_failure_text]
  ∧ (dispatch net sample_event sample_page).1 = Normal ()
  ∧ idle (doc w) = true.
Proof.
  intros error net w.
  assert (markup sample_page) as Hd by markup_by_lookup.
  split; [exact Hd|].
  apply (send_or_parse_failure net sample_event sample_page error Hd).
  right. exists (Resp 500 (Rejected error)). split; reflexivity.
Defined.


(** C9.  Every run sends exactly one request: a POST to
    [/api/process_query] whose body is the [FormData] holding the entry
    list the form had when the event fired, with no headers given, so
    that the content type is the multipart one Fetch derives from the
    body. *)
Theorem single_post_request (net : network) (e : SubmitEvent) (d : document) :
  markup d →
  let w := (dispatch net e d).2 in
  ∃ init,
    requests (journal w) = [("/api/process_query", init)]
    ∧ method init = "POST"
    ∧ body init = BodyFormData (entry_list (target e))
    ∧ headers init = None
    ∧ extracted_content_type (body init) = "multipart/form-data".
Proof.
  intros Hd w. subst w.
  destruct (dispatch_world net e d Hd) as (_ & _ & _ & -> & _).
  exists (request_of e). repeat split. by destruct (settle net e).
Qed.

Lemma single_post_request_witness :
  let net := backend 200 (Fulfilled (VObject {["response" := VString "OK-42"]})) in
  let w := (dispatch net sample_event sample_page).2 in
  markup sample_page
  ∧ ∃ init,
      requests (journal w) = [("/api/process_query", init)]
      ∧ method init = "POST"
      ∧ body init = BodyFormData (entry_list (target sample_event))
      ∧ headers init = None
      ∧ extracted_content_type (body init) = "multipart/form-data".
Proof.
  intros net w.
  assert (markup sample_page) as Hd by markup_by_lookup.
  split; [exact Hd | exact (single_post_request net sample_event sample_page Hd)].
Defined.

(** C10, as claimed, fails: on status 200 with the body [{}], which has no
    [response] property, the output text is empty, not the nine letters
    of ["undefined"]. *)
Lemma missing_response_not_undefined :
  let r := Resp 200 (Fulfilled (VObject ∅)) in
  let w := (dispatch (backend 200 (Fulfilled (VObject ∅))) sample_event sample_page).2 in
  markup sample_page
  ∧ ok r = true
  ∧ own_property (VObject ∅) "response" = VUndefined
  ∧ output_text (doc w) = Some ""
  ∧ output_text (doc w) ≠ Some "undefined".
Proof.
  intros r w. split; [markup_by_lookup|].
  split; [reflexivity|]. split; [reflexivity|].
  split; [by vm_compute | vm_compute; discriminate].
Qed.

(** C10, amended.  A response with a status in the range 200 to 299 whose
    parsed body is not [null] and has no [response] property: the
    property reads as [undefined], which the [textContent] setter takes
    for the empty string; the output text is empty and the colour
    neutral. *)
Theorem missing_response_clears_output (net : network) (e : SubmitEvent)
    (d : document) (r : Response) (v : value) :
  markup d →
  net "/api/process_query" (request_of e) = Fulfilled r →
  ok r = true →
  json_body r = Fulfilled v →
  nullish v = false →
  own_property v "response" = VUndefined →
  let w := (dispatch net e d).2 in
  output_text (doc w) = Some ""
  ∧ output_color (doc w) = Some "black".
Proof.
  intros Hd Hnet Hok Hjson Hv Hmissing w. subst w.
  destruct (dispatch_world net e d Hd) as (_ & -> & _).
  destruct (settled_output (settle net e) d Hd) as [-> ->].
  rewrite (settle_parsed net e r v Hnet Hjson). unfold parsed_outcome.
  by rewrite Hv, Hok, Hmissing.
Qed.

Lemma missing_response_clears_output_witness :
  let net := backend 200 (Fulfilled (VObject {["answer" := VString "OK-42"]})) in
  let w := (dispatch net sample_event sample_page).2 in
  markup sample_page
  ∧ output_text (doc w) = Some ""
  ∧ output_color (doc w) = Some "black".
Proof.
  intros net w.
  assert (markup sample_page) as Hd by markup_by_lookup.
  split; [exact Hd|].
  exact (missing_response_clears_output net sample_event sample_page
           (Resp 200 (Fulfilled (VObject {["answer" := VString "OK-42"]})))
           (VObject {["answer" := VString "OK-42"]})
           Hd eq_refl eq_refl eq_refl eq_refl eq_refl).
Defined.

(** * Further properties of the listener *)

(** ** A page without the elements the listener looks up *)

(** The run on a page that lacks the submit button: the first write
    throws, and the page is the one the run found. *)
Lemma dispatch_without_button (net : network) (e : SubmitEvent) (d : document) :
  d !! "submit-btn" = None →
  dispatch net e d =
    (Throw (TypeError "Cannot access property 'disabled' of null"),
     World d (cancelable e) [APreventDefault; ANewFormData (entry_list (target e))] []).
Proof.
  intros Hb. unfold dispatch, on_submit, start. unfold_js. rewrite Hb.
  by destruct (d !! "loading-indicator"), (d !! "response-output").
Qed.

(** The run on a page that has the button but no loading indicator. *)
Lemma dispatch_without_indicator (net : network) (e : SubmitEvent) (d : document) :
  is_Some (d !! "submit-btn") →
  d !! "loading-indicator" = None →
  dispatch net e d =
    (Throw (TypeError "Cannot access property 'classList' of null"),
     World (alter (with_disabled true) "submit-btn" d) (cancelable e)
           [APreventDefault; ANewFormData (entry_list (target e));
            ASetDisabled "submit-btn" true] []).
Proof.
  intros [b Hb] Hl. unfold dispatch, on_submit, start. unfold_js. rewrite Hb, Hl.
  by destruct (d !! "response-output").
Qed.

(** The run on a page that has the button and the indicator but no output
    element. *)
Lemma dispatch_without_output (net : network) (e : SubmitEvent) (d : document) :
  is_Some (d !! "submit-btn") →
  is_Some (d !! "loading-indicator") →
  d !! "response-output" = None →
  dispatch net e d =
    (Throw (TypeError "Cannot access property 'textContent' of null"),
     World (alter (with_classList (λ c, c ∖ {["hidden"]})) "loading-indicator"
              (alter (with_disabled true) "submit-btn" d))
           (cancelable e)
           [APreventDefault; ANewFormData (entry_list (target e));
            ASetDisabled "submit-btn" true;
            AClassRemove "loading-indicator" "hidden"] []).
Proof.
  intros [b Hb] [l Hl] Ho. unfold dispatch, on_submit, start. unfold_js.
  by rewrite Hb, Hl, Ho.
Qed.

(** The ways a page can fall short of the markup. *)
Lemma incomplete_markup_cases (d : document) :
  ¬ markup d →
  d !! "submit-btn" = None
  ∨ (is_Some (d !! "submit-btn") ∧ d !! "loading-indicator" = None)
  ∨ (is_Some (d !! "submit-btn") ∧ is_Some (d !! "loading-indicator")
     ∧ d !! "response-output" = None).
Proof.
  intros Hd. unfold markup in Hd.
  destruct (d !! "submit-btn") as [b|]; [|by left].
  destruct (d !! "loading-indicator") as [l|]; [|right; left; eauto].
  destruct (d !! "response-output") as [o|]; [|right; right; eauto].
  destruct Hd. eauto.
Qed.

(** X1.  On a page that lacks one of the three elements the listener
    looks up, the run ends in a [TypeError] thrown before the [try]
    block: no request is sent, the listener is never suspended, nothing
    is written to the console, and neither statement of the [finally]
    block is executed. *)
Theorem incomplete_markup_aborts (net : network) (e : SubmitEvent) (d : document) :
  ¬ markup d →
  let r := dispatch net e d in
  (∃ msg, r.1 = Throw (TypeError msg))
  ∧ requests (journal r.2) = []
  ∧ frames r.2 = []
  ∧ diagnostics (journal r.2) = []
  ∧ times is_enable_submit (journal r.2) = 0
  ∧ times is_hide_loading (journal r.2) = 0.
Proof.
  intros Hd r. subst r.
  destruct (incomplete_markup_cases d Hd) as [Hb|[[Hb Hl]|(Hb & Hl & Ho)]].
  - rewrite (dispatch_without_button net e d Hb). by eauto 10.
  - rewrite (dispatch_without_indicator net e d Hb Hl). by eauto 10.
  - rewrite (dispatch_without_output net e d Hb Hl Ho). by eauto 10.
Qed.

Lemma incomplete_markup_aborts_witness :
  let d : document := delete "response-output" sample_page in
  let r := dispatch unreachable sample_event d in
  ¬ markup d
  ∧ (∃ msg, r.1 = Throw (TypeError msg))
  ∧ requests (journal r.2) = []
  ∧ frames r.2 = []
  ∧ diagnostics (journal r.2) = []
  ∧ times is_enable_submit (journal r.2) = 0
  ∧ times is_hide_loading (journal r.2) = 0.
Proof.
  intros d r.
  assert (¬ markup d) as Hd by (intros (_ & _ & [o Ho]); discriminate Ho).
  split; [exact Hd | exact (incomplete_markup_aborts unreachable sample_event d Hd)].
Defined.

(** X2.  On a page that has the submit button but lacks one of the other
    two elements, the run disables the button and never enables it
    again; when only the output element is missing, the page is left
    busy: button disabled and indicator visible. *)
Theorem incomplete_markup_locks_button (net : network) (e : SubmitEvent)
    (d : document) :
  is_Some (d !! "submit-btn") →
  ¬ markup d →
  let w := (dispatch net e d).2 in
  submit_disabled (doc w) = true
  ∧ (is_Some (d !! "loading-indicator") → busy (doc w) = true).
Proof.
  intros Hb Hd w. subst w.
  destruct (incomplete_markup_cases d Hd) as [Hnone|[[_ Hl]|(_ & Hl & Ho)]].
  - rewrite Hnone in Hb. by destruct Hb.
  - rewrite (dispatch_without_indicator net e d Hb Hl). cbn [snd doc].
    split; [|rewrite Hl; by intros []].
    unfold submit_disabled. rewrite lookup_alter_eq.
    destruct Hb as [b ->]. done.
  - rewrite (dispatch_without_output net e d Hb Hl Ho). cbn [snd doc].
    assert (submit_disabled
              (alter (with_classList (λ c, c ∖ {["hidden"]})) "loading-indicator"
                 (alter (with_disabled true) "submit-btn" d)) = true) as Hdis.
    { unfold submit_disabled. rewrite lookup_alter_ne by done.
      rewrite lookup_alter_eq. destruct Hb as [b ->]. done. }
    split; [done|]. intros _. unfold busy. rewrite Hdis. cbn.
    unfold loading_visible. rewrite lookup_alter_eq, lookup_alter_ne by done.
    destruct Hl as [l ->]. cbn.
    apply bool_decide_eq_true. intros [_ Hin]%elem_of_difference.
    apply Hin. by apply elem_of_singleton.
Qed.

Lemma incomplete_markup_locks_button_witness :
  let d : document := delete "response-output" sample_page in
  let w := (dispatch unreachable sample_event d).2 in
  is_Some (d !! "submit-btn") ∧ ¬ markup d
  ∧ submit_disabled (doc w) = true
  ∧ busy (doc w) = true.
Proof.
  intros d w.
  assert (is_Some (d !! "submit-btn")) as Hb by (eexists; reflexivity).
  assert (is_Some (d !! "loading-indicator")) as Hl by (eexists; reflexivity).
  assert (¬ markup d) as Hd by (intros (_ & _ & [o Ho]); discriminate Ho).
  destruct (incomplete_markup_locks_button unreachable sample_event d Hb Hd)
    as [Hdis Hbusy].
  split; [exact Hb|]. split; [exact Hd|]. split; [exact Hdis | exact (Hbusy Hl)].
Defined.

(** X3.  On a page without the submit button the run changes nothing:
    the document it leaves is the document it found. *)
Theorem no_button_no_change (net : network) (e : SubmitEvent) (d : document) :
  d !! "submit-btn" = None →
  doc (dispatch net e d).2 = d.
Proof. intros Hb. by rewrite (dispatch_without_button net e d Hb). Qed.

Lemma no_button_no_change_witness :
  let d : document := delete "submit-btn" sample_page in
  d !! "submit-btn" = None
  ∧ doc (dispatch unreachable sample_event d).2 = d.
Proof.
  intros d.
  assert (d !! "submit-btn" = None) as Hb by reflexivity.
  split; [exact Hb | exact (no_button_no_change unreachable sample_event d Hb)].
Defined.

(** ** What a run leaves alone *)

Lemma settled_lookup_other (o : outcome) (d : document) (id : string) :
  id ≠ "submit-btn" → id ≠ "loading-indicator" → id ≠ "response-output" →
  settled o d !! id = d !! id.
Proof.
  intros Hb Hl Ho. unfold settled, leave_busy, enter_busy.
  destruct o; unfold render; by rewrite !lookup_alter_ne.
Qed.

Lemma hidden_again (c : gset string) :
  c ∖ {["hidden"]} ∪ {["hidden"]} = c ∪ {["hidden"]}.
Proof.
  apply set_eq. intros x.
  rewrite !elem_of_union, elem_of_difference, !elem_of_singleton.
  destruct (decide (x = "hidden")); tauto.
Qed.

(** The three elements after a run, in terms of what they were. *)
Lemma settled_elements (o : outcome) (d : document) (b l out : element) :
  d !! "submit-btn" = Some b →
  d !! "loading-indicator" = Some l →
  d !! "response-output" = Some out →
  settled o d !! "submit-btn"
  = Some (Element false (classList b) (textContent b) (style_color b))
  ∧ settled o d !! "loading-indicator"
    = Some (Element (disabled l) (classList l ∪ {["hidden"]}) (textContent l)
              (style_color l))
  ∧ settled o d !! "response-output"
    = Some (Element (disabled out) (classList out) (outcome_text o) (outcome_color o)).
Proof.
  intros Hb Hl Ho. unfold settled. split; [|split].
  - unfold leave_busy. rewrite lookup_alter_ne, lookup_alter_eq by done.
    assert (render o (enter_busy d) !! "submit-btn" = enter_busy d !! "submit-btn") as ->
      by (destruct o; unfold render; by rewrite ?lookup_alter_ne).
    through_writes. by rewrite Hb.
  - unfold leave_busy. rewrite lookup_alter_eq, lookup_alter_ne by done.
    assert (render o (enter_busy d) !! "loading-indicator"
            = enter_busy d !! "loading-indicator") as ->
      by (destruct o; unfold render; by rewrite ?lookup_alter_ne).
    through_writes. rewrite Hl. cbn. unfold with_classList. cbn.
    by rewrite hidden_again.
  - unfold leave_busy. rewrite !lookup_alter_ne by done.
    rewrite (render_response_output o _
               (Element (disabled out) (classList out) placeholder_text "black"));
      [done | through_writes; by rewrite Ho | done].
Qed.

(** X5.  A run changes of each element only the attribute its statements
    name: the button keeps its classes, text and colour and ends
    enabled; the indicator keeps its other classes (and its disabled
    flag, text and colour) and ends with the class [hidden]; the output
    element keeps its disabled flag and its classes. *)
Theorem named_attributes_only (net : network) (e : SubmitEvent) (d : document)
    (b l out : element) :
  d !! "submit-btn" = Some b →
  d !! "loading-indicator" = Some l →
  d !! "response-output" = Some out →
  let d' := doc (dispatch net e d).2 in
  d' !! "submit-btn"
  = Some (Element false (classList b) (textContent b) (style_color b))
  ∧ d' !! "loading-indicator"
    = Some (Element (disabled l) (classList l ∪ {["hidden"]}) (textContent l)
              (style_color l))
  ∧ ∃ text color,
      d' !! "response-output"
      = Some (Element (disabled out) (classList out) text color).
Proof.
  intros Hb Hl Ho d'. subst d'.
  assert (markup d) as Hd by (unfold markup; rewrite Hb, Hl, Ho; eauto).
  destruct (dispatch_world net e d Hd) as (_ & -> & _).
  destruct (settled_elements (settle net e) d b l out Hb Hl Ho) as (-> & -> & ->).
  eauto.
Qed.

Lemma named_attributes_only_witness :
  let d : document :=
    {[ "submit-btn" := Element true {["btn"; "primary"]} "Alefa" "white";
       "loading-indicator" := Element false {["spinner"]} "..." "";
       "response-output" := Element false {["box"]} "taloha" "red" ]} in
  let d' := doc (dispatch unreachable sample_event d).2 in
  d' !! "submit-btn" = Some (Element false {["btn"; "primary"]} "Alefa" "white")
  ∧ d' !! "loading-indicator"
    = Some (Element false ({["spinner"]} ∪ {["hidden"]}) "..." "")
  ∧ ∃ text color, d' !! "response-output" = Some (Element false {["box"]} text color).
Proof.
  intros d d'.
  exact (named_attributes_only unreachable sample_event d
           (Element true {["btn"; "primary"]} "Alefa" "white")
           (Element false {["spinner"]} "..." "")
           (Element false {["box"]} "taloha" "red")
           eq_refl eq_refl eq_refl).
Defined.

(** ** One submission after another *)

Lemma settled_twice (o1 o2 : outcome) (d : document) :
  markup d → settled o2 (settled o1 d) = settled o2 d.
Proof.
  intros ([b Hb] & [l Hl] & [out Ho]). apply map_eq. intros id.
  destruct (settled_elements o1 d b l out Hb Hl Ho) as (Hb1 & Hl1 & Ho1).
  destruct (settled_elements o2 d b l out Hb Hl Ho) as (Hb2 & Hl2 & Ho2).
  destruct (settled_elements o2 (settled o1 d) _ _ _ Hb1 Hl1 Ho1) as (Hb3 & Hl3 & Ho3).
  cbn [disabled classList textContent style_color] in Hb3, Hl3, Ho3.
  destruct (decide (id = "submit-btn")) as [->|Hnb]; [by rewrite Hb3, Hb2|].
  destruct (decide (id = "loading-indicator")) as [->|Hnl].
  { rewrite Hl3, Hl2. by rewrite <- (assoc_L (∪)), (idemp_L (∪)). }
  destruct (decide (id = "response-output")) as [->|Hno]; [by rewrite Ho3, Ho2|].
  by rewrite !settled_lookup_other.
Qed.

(** X7.  The page a run leaves does not depend on what an earlier run
    showed: dispatching a second submission on the page left by a first
    one gives the very page the second submission gives on the original
    page.  (In particular the red of an earlier error does not outlive a
    later success.) *)
Theorem earlier_run_leaves_no_trace (net1 net2 : network) (e1 e2 : SubmitEvent)
    (d : document) :
  markup d →
  doc (dispatch net2 e2 (doc (dispatch net1 e1 d).2)).2
  = doc (dispatch net2 e2 d).2.
Proof.
  intros Hd.
  destruct (dispatch_world net1 e1 d Hd) as (_ & -> & _).
  destruct (dispatch_world net2 e2 d Hd) as (_ & -> & _).
  destruct (dispatch_world net2 e2 _ (settled_markup (settle net1 e1) d Hd))
    as (_ & -> & _).
  by apply settled_twice.
Qed.

Lemma earlier_run_leaves_no_trace_witness :
  let failing := backend 422 (Fulfilled (VObject {["detail" := VString "Invalid file type"]})) in
  let working := backend 200 (Fulfilled (VObject {["response" := VString "OK-42"]})) in
  markup sample_page
  ∧ doc (dispatch working sample_event
           (doc (dispatch failing sample_event sample_page).2)).2
    = doc (dispatch working sample_event sample_page).2.
Proof.
  intros failing working.
  assert (markup sample_page) as Hd by markup_by_lookup.
  split; [exact Hd|].
  exact (earlier_run_leaves_no_trace failing working sample_event sample_event
           sample_page Hd).
Defined.

(** ** While the request is under way *)

Lemma enter_busy_output (d : document) :
  markup d →
  output_text (enter_busy d) = Some placeholder_text
  ∧ output_color (enter_busy d) = Some "black".
Proof.
  intros (_ & _ & [out Ho]). unfold output_text, output_color.
  through_writes. by rewrite Ho.
Qed.

(** X8.  Every page shown while the listener is suspended carries the
    placeholder text in black in the output element, whatever the
    element showed before; the listener is suspended once when [fetch]
    is rejected and twice when it yields a response. *)
Theorem placeholder_while_suspended (net : network) (e : SubmitEvent)
    (d : document) :
  markup d →
  let w := (dispatch net e d).2 in
  Forall (λ page, output_text page = Some placeholder_text
                  ∧ output_color page = Some "black") (frames w)
  ∧ length (frames w)
    = match net "/api/process_query" (request_of e) with
      | Rejected _ => 1
      | Fulfilled _ => 2
      end.
Proof.
  intros Hd w. subst w.
  destruct (dispatch_world net e d Hd) as (_ & _ & _ & _ & ->). split.
  - by apply Forall_replicate, enter_busy_output.
  - by rewrite length_replicate.
Qed.

Lemma placeholder_while_suspended_witness :
  let d : document := <["response-output" := Element false ∅ "taloha" "red"]> sample_page in
  let net := backend 200 (Fulfilled (VObject {["response" := VString "OK-42"]})) in
  let w := (dispatch net sample_event d).2 in
  markup d
  ∧ Forall (λ page, output_text page = Some placeholder_text
                    ∧ output_color page = Some "black") (frames w)
  ∧ length (frames w) = 2.
Proof.
  intros d net w.
  assert (markup d) as Hd by markup_by_lookup.
  split; [exact Hd | exact (placeholder_while_suspended net sample_event d Hd)].
Defined.

(** X9.  The request is sent only once the page is busy: the first seven
    effects of a run are, in this order, the call of [preventDefault], the
    snapshot of the form, the four writes that enter the busy state and
    the call of [fetch]; everything else the run does comes after the
    request has left. *)
Theorem busy_before_request (net : network) (e : SubmitEvent) (d : document) :
  markup d →
  ∃ later,
    journal (dispatch net e d).2
    = [APreventDefault; ANewFormData (entry_list (target e));
       ASetDisabled "submit-btn" true;
       AClassRemove "loading-indicator" "hidden";
       ASetTextContent "response-output" placeholder_text;
       ASetColor "response-output" "black";
       AFetch "/api/process_query" (request_of e)] ++ later
    ∧ requests later = [].
Proof.
  intros Hd. destruct (dispatch_world net e d Hd) as (_ & _ & _ & -> & _).
  unfold run_journal. eexists. split; [done|].
  by destruct (settle net e).
Qed.

Lemma busy_before_request_witness :
  markup sample_page
  ∧ ∃ later,
      journal (dispatch unreachable sample_event sample_page).2
      = [APreventDefault; ANewFormData (entry_list (target sample_event));
         ASetDisabled "submit-btn" true;
         AClassRemove "loading-indicator" "hidden";
         ASetTextContent "response-output" placeholder_text;
         ASetColor "response-output" "black";
         AFetch "/api/process_query" (request_of sample_event)] ++ later
      ∧ requests later = [].
Proof.
  assert (markup sample_page) as Hd by markup_by_lookup.
  split; [exact Hd | exact (busy_before_request unreachable sample_event sample_page Hd)].
Defined.

(** ** Bodies and details off the expected shape *)

(** X10.  A response of any status, 2xx included, whose body parses to
    [null]: reading a property of the parsed body throws a [TypeError]
    inside the [try] block, so the output shows the connection-failure
    message in red, the console gets that one [TypeError], and the page
    is restored. *)
Theorem null_body_is_a_failure (net : network) (e : SubmitEvent) (d : document)
    (r : Response) (v : value) :
  markup d →
  net "/api/process_query" (request_of e) = Fulfilled r →
  json_body r = Fulfilled v →
  nullish v = true →
  let w := (dispatch net e d).2 in
  output_text (doc w) = Some connection_failure_text
  ∧ output_color (doc w) = Some "red"
  ∧ (∃ msg, diagnostics (journal w) = [("Erreur de la requête:", TypeError msg)])
  ∧ idle (doc w) = true.
Proof.
  intros Hd Hnet Hjson Hv w. subst w.
  destruct (dispatch_world net e d Hd) as (_ & -> & _ & -> & _).
  destruct (settled_output (settle net e) d Hd) as [-> ->].
  rewrite (settled_idle (settle net e) d Hd).
  rewrite (settle_parsed net e r v Hnet Hjson). unfold parsed_outcome.
  rewrite Hv. by eauto.
Qed.

(** Status 200 with the body [null]. *)
Lemma null_body_is_a_failure_witness :
  let net := backend 200 (Fulfilled VNull) in
  let w := (dispatch net sample_event sample_page).2 in
  markup sample_page
  ∧ output_text (doc w) = Some connection_failure_text
  ∧ output_color (doc w) = Some "red"
  ∧ (∃ msg, diagnostics (journal w) = [("Erreur de la requête:", TypeError msg)])
  ∧ idle (doc w) = true.
Proof.
  intros net w.
  assert (markup sample_page) as Hd by markup_by_lookup.
  split; [exact Hd|].
  exact (null_body_is_a_failure net sample_event sample_page
           (Resp 200 (Fulfilled VNull)) VNull Hd eq_refl eq_refl eq_refl).
Defined.

(** X12.  The console gets a record exactly when the [catch] block
    runs.  It gets none when a body was parsed to something other than
    [null] and the text to show could be converted to a string.  It gets
    exactly one otherwise: the rejection of [fetch] or of [json()], or
    the [TypeError] of the property read on [null] or of the conversion
    of a value that has no string. *)
Theorem console_record_iff_caught (net : network) (e : SubmitEvent) (d : document) :
  markup d →
  let log := diagnostics (journal (dispatch net e d).2) in
  match net "/api/process_query" (request_of e) with
  | Rejected error => log = [("Erreur de la requête:", error)]
  | Fulfilled r =>
      match json_body r with
      | Rejected error => log = [("Erreur de la requête:", error)]
      | Fulfilled v =>
          if nullish v
          then ∃ msg, log = [("Erreur de la requête:", TypeError msg)]
          else
            match (if ok r then nullable_DOMString (own_property v "response")
                   else ToString (logical_or (own_property v "detail")
                                    (VString fallback_text))) with
            | Some _ => log = []
            | None => ∃ msg, log = [("Erreur de la requête:", TypeError msg)]
            end
      end
  end.
Proof.
  intros Hd log. subst log.
  destruct (dispatch_world net e d Hd) as (_ & _ & _ & -> & _).
  unfold settle. destruct (net _ _) as [r|error]; [|done].
  destruct (json_body r) as [v|error]; [|done].
  unfold parsed_outcome. destruct (nullish v); [by eexists|].
  destruct (ok r).
  - destruct (nullable_DOMString (own_property v "response")); [done | by eexists].
  - destruct (ToString (logical_or (own_property v "detail") (VString fallback_text)));
      [done | by eexists].
Qed.

Lemma console_record_iff_caught_witness :
  let quiet := backend 404 (Fulfilled (VObject {["detail" := VString "Not Found"]})) in
  let loud := backend 200 (Fulfilled (VObject {["response" :=
                VObject {["toString" := VNumber "1"]}]})) in
  markup sample_page
  ∧ diagnostics (journal (dispatch quiet sample_event sample_page).2) = []
  ∧ ∃ msg, diagnostics (journal (dispatch loud sample_event sample_page).2)
           = [("Erreur de la requête:", TypeError msg)].
Proof.
  intros quiet loud.
  assert (markup sample_page) as Hd by markup_by_lookup.
  split; [exact Hd|]. split.
  - exact (console_record_iff_caught quiet sample_event sample_page Hd).
  - exact (console_record_iff_caught loud sample_event sample_page Hd).
Defined.

(** X13.  After a run the output is black exactly when the response had
    a status in the range 200 to 299, its body parsed to something other
    than [null] and the [response] property of the body could be
    converted to a string; in every other case it is red. *)
Theorem black_iff_success (net : network) (e : SubmitEvent) (d : document) :
  markup d →
  let color := output_color (doc (dispatch net e d).2) in
  (color = Some "black" ∨ color = Some "red")
  ∧ (color = Some "black" ↔
     ∃ r v text, net "/api/process_query" (request_of e) = Fulfilled r
                 ∧ ok r = true ∧ json_body r = Fulfilled v ∧ nullish v = false
                 ∧ nullable_DOMString (own_property v "response") = Some text).
Proof.
  intros Hd color. subst color.
  destruct (dispatch_world net e d Hd) as (_ & -> & _).
  destruct (settled_output (settle net e) d Hd) as [_ ->].
  unfold settle. destruct (net _ _) as [r|error] eqn:Hnet.
  2: { split; [by right|]. split; [discriminate | by intros (? & ? & ? & ? & _)]. }
  destruct (json_body r) as [v|error] eqn:Hjson.
  2: { split; [by right|]. split; [discriminate|].
       intros (r' & v' & text & [= <-] & _ & Hj & _). congruence. }
  unfold parsed_outcome. destruct (nullish v) eqn:Hv.
  { split; [by right|]. split; [discriminate|].
    intros (r' & v' & text & [= <-] & _ & Hj & Hv' & _). congruence. }
  destruct (ok r) eqn:Hok.
  - destruct (nullable_DOMString (own_property v "response")) as [text|] eqn:Htext;
      cbn [outcome_color].
    + split; [by left|]. split; [|done]. intros _. by exists r, v, text.
    + split; [by right|]. split; [discriminate|].
      intros (r' & v' & text & [= <-] & _ & Hj & _ & Htext'). congruence.
  - assert (outcome_color
              match ToString (logical_or (own_property v "detail") (VString fallback_text)) with
              | Some shown => AppError (status r) shown
              | None => ConnectionFailure not_convertible
              end = "red") as -> by (by destruct (ToString _)).
    split; [by right|]. split; [discriminate|].
    intros (r' & v' & text & [= <-] & Hok' & _). congruence.
Qed.

Lemma black_iff_success_witness :
  let net := backend 200 (Rejected (SyntaxError "Unexpected end of JSON input")) in
  let color := output_color (doc (dispatch net sample_event sample_page).2) in
  markup sample_page
  ∧ (color = Some "black" ∨ color = Some "red")
  ∧ (color = Some "black" ↔
     ∃ r v text, net "/api/process_query" (request_of sample_event) = Fulfilled r
                 ∧ ok r = true ∧ json_body r = Fulfilled v ∧ nullish v = false
                 ∧ nullable_DOMString (own_property v "response") = Some text).
Proof.
  intros net color.
  assert (markup sample_page) as Hd by markup_by_lookup.
  split; [exact Hd | exact (black_iff_success net sample_event sample_page Hd)].
Defined.

(** ** The listener turn by turn *)

Ltac unfold_turns :=
  repeat (unfold first_turn, next_turn, suspend, outcome_of, catch_block,
            finally_block;
          cbn -[alter lookup nullable_DOMString ToString];
          unfold_js).

(** Run alone, the turns are the listener: the first turn and two later
    ones leave the completion and the state that [on_submit] leaves. *)
Lemma turns_make_the_run (net : network) (e : SubmitEvent) (w : world) :
  let '(t1, w1) := first_turn net e w in
  let '(t2, w2) := next_turn t1 w1 in
  next_turn t2 w2 = (Finished (on_submit net e w).1, (on_submit net e w).2).
Proof.
  unfold on_submit. unfold_turns.
  destruct (doc w !! "submit-btn"), (doc w !! "loading-indicator"),
    (doc w !! "response-output"); unfold_turns; try done.
  destruct (net _ _) as [r|error]; unfold_turns; [|done].
  destruct (json_body r) as [v|error]; unfold_turns; [|done].
  destruct (ok r), (nullish v); unfold_turns; try done.
  - by destruct (nullable_DOMString (own_property v "response")); unfold_turns.
  - by destruct (ToString (logical_or (own_property v "detail") (VString fallback_text)));
      unfold_turns.
Qed.

Lemma first_turn_closed_form (net : network) (e : SubmitEvent) (w : world) :
  markup (doc w) →
  first_turn net e w =
    (AwaitingResponse held (net "/api/process_query" (request_of e)),
     World (enter_busy (doc w))
           (defaultPrevented w || cancelable e)
           (journal w ++ entry_journal e)
           (frames w ++ [enter_busy (doc w)])).
Proof.
  intros ([b Hb] & [l Hl] & [o Ho]). unfold_turns. rewrite Hb, Hl, Ho. unfold_turns.
  unfold entry_journal, request_of, held. by rewrite <- !app_assoc.
Qed.

Lemma next_turn_closed_form (t : task) (w : world) :
  holds_elements t →
  next_turn t w =
    (task_after t,
     World (doc_after t (doc w)) (defaultPrevented w)
           (journal w ++ journal_after t)
           (frames w ++ frames_after t (doc w))).
Proof.
  destruct w as [d flag j f].
  destruct t as [els [r|error]|els r [v|error]|c]; cbn [holds_elements].
  - intros ->. unfold_turns. by rewrite app_nil_r.
  - intros ->. unfold_turns. unfold restore_journal.
    by rewrite <- !app_assoc, app_nil_r.
  - intros ->. unfold_turns. unfold parsed_outcome.
    destruct (ok r), (nullish v); unfold_turns; unfold restore_journal;
      [ | destruct (nullable_DOMString (own_property v "response")); unfold_turns
        | | destruct (ToString (logical_or (own_property v "detail")
                                  (VString fallback_text))); unfold_turns ];
      by rewrite <- !app_assoc, app_nil_r.
  - intros ->. unfold_turns. unfold restore_journal.
    destruct (ok r); unfold_turns; by rewrite <- !app_assoc, app_nil_r.
  - intros _. cbn. by rewrite !app_nil_r.
Qed.

Lemma holds_elements_after (t : task) : holds_elements t → holds_elements (task_after t).
Proof. by destruct t as [els [r|error]|els r p|c]. Qed.

Lemma requests_app (j1 j2 : list action) :
  requests (j1 ++ j2) = requests j1 ++ requests j2.
Proof. apply omap_app. Qed.

Lemma requests_journal_after (t : task) : requests (journal_after t) = [].
Proof.
  destruct t as [els [r|error]|els r p|c]; cbn [journal_after]; try done.
  by destruct (body_outcome r p).
Qed.

Lemma doc_after_is_Some (t : task) (d : document) (id : string) :
  is_Some (doc_after t d !! id) ↔ is_Some (d !! id).
Proof.
  destruct t as [els [r|error]|els r p|c]; cbn [doc_after]; try done;
    unfold leave_busy; [|destruct (body_outcome r p)]; unfold render;
    by rewrite !lookup_alter_is_Some.
Qed.

(** A turn that finishes a run leaves the page idle. *)
Lemma finishing_turn_idle (t : task) (d : document) :
  is_Some (d !! "submit-btn") → is_Some (d !! "loading-indicator") →
  is_finished t = false → is_finished (task_after t) = true →
  idle (doc_after t d) = true.
Proof.
  intros Hb Hl Hnot Hfin.
  destruct t as [els [r|error]|els r p|c]; try discriminate; cbn [doc_after];
    apply idle_leave_busy;
    first [ destruct (body_outcome r p) | idtac ]; unfold render;
    by rewrite !lookup_alter_is_Some.
Qed.

Lemma turn_closed_form (s : overlap) (x : run_id) :
  holds_elements (taskA s) → holds_elements (taskB s) →
  turn s x =
    let t := match x with RunA => taskA s | RunB => taskB s end in
    let w := World (doc_after t (doc (shared s))) (defaultPrevented (shared s))
               (journal (shared s) ++ journal_after t)
               (frames (shared s) ++ frames_after t (doc (shared s))) in
    match x with
    | RunA => Overlap (task_after t) (taskB s) w
    | RunB => Overlap (taskA s) (task_after t) w
    end.
Proof.
  intros HA HB. destruct x; unfold turn.
  - by rewrite (next_turn_closed_form _ _ HA).
  - by rewrite (next_turn_closed_form _ _ HB).
Qed.

Lemma turn_keeps_invariant (requested : list (string * RequestInit))
    (s : overlap) (x : run_id) :
  overlap_invariant requested s → overlap_invariant requested (turn s x).
Proof.
  destruct s as [tA tB w]. intros (HA & HB & Hb & Hl & Hreq & Hidle).
  cbn [taskA taskB shared] in *.
  rewrite (turn_closed_form (Overlap tA tB w) x HA HB). cbn [taskA taskB shared].
  destruct x; unfold overlap_invariant; cbn [taskA taskB shared doc journal].
  - split; [by apply holds_elements_after|]. split; [done|].
    split; [by apply doc_after_is_Some|]. split; [by apply doc_after_is_Some|].
    split.
    { by rewrite requests_app, Hreq, (requests_journal_after tA), app_nil_r. }
    intros Hfin. destruct (is_finished tA) eqn:HfA.
    + destruct tA; try discriminate. by apply Hidle.
    + destruct (is_finished (task_after tA)) eqn:HfA'.
      * by apply finishing_turn_idle.
      * cbn in Hfin.
        assert (doc_after tA (doc w) = doc w) as ->
          by (by destruct tA as [els [r|error]|els r p|c]).
        apply Hidle. by rewrite Hfin, orb_true_r.
  - split; [done|]. split; [by apply holds_elements_after|].
    split; [by apply doc_after_is_Some|]. split; [by apply doc_after_is_Some|].
    split.
    { by rewrite requests_app, Hreq, (requests_journal_after tB), app_nil_r. }
    intros Hfin. destruct (is_finished tB) eqn:HfB.
    + destruct tB; try discriminate. apply Hidle. by rewrite orb_true_r.
    + destruct (is_finished (task_after tB)) eqn:HfB'.
      * by apply finishing_turn_idle.
      * rewrite orb_false_r in Hfin.
        assert (doc_after tB (doc w) = doc w) as ->
          by (by destruct tB as [els [r|error]|els r p|c]).
        apply Hidle. by rewrite Hfin.
Qed.

Lemma turns_keep_invariant (requested : list (string * RequestInit))
    (schedule : list run_id) (s : overlap) :
  overlap_invariant requested s → overlap_invariant requested (foldl turn s schedule).
Proof.
  revert s. induction schedule as [|x schedule IH]; intros s Hs; [done|].
  cbn [foldl]. by apply IH, turn_keeps_invariant.
Qed.

(** Both runs past their first turn. *)
Lemma overlapping_closed_form (netA netB : network) (eA eB : SubmitEvent)
    (d : document) (schedule : list run_id) :
  markup d →
  overlapping netA netB eA eB d schedule =
    foldl turn
      (Overlap
         (AwaitingResponse held (netA "/api/process_query" (request_of eA)))
         (AwaitingResponse held (netB "/api/process_query" (request_of eB)))
         (World (enter_busy (enter_busy d))
                (cancelable eA || cancelable eB)
                (entry_journal eA ++ entry_journal eB)
                [enter_busy d; enter_busy (enter_busy d)]))
      schedule.
Proof.
  intros Hd. unfold overlapping.
  rewrite (first_turn_closed_form netA eA (start d) Hd). cbn [start doc].
  rewrite first_turn_closed_form by (by apply markup_enter_busy). done.
Qed.

Lemma overlapping_invariant (netA netB : network) (eA eB : SubmitEvent)
    (d : document) (schedule : list run_id) :
  markup d →
  overlap_invariant
    [("/api/process_query", request_of eA); ("/api/process_query", request_of eB)]
    (overlapping netA netB eA eB d schedule).
Proof.
  intros Hd. rewrite (overlapping_closed_form netA netB eA eB d schedule Hd).
  apply turns_keep_invariant. unfold overlap_invariant.
  cbn [taskA taskB shared doc journal].
  pose proof (markup_enter_busy _ (markup_enter_busy _ Hd)) as (Hb & Hl & _).
  by repeat split.
Qed.

Lemma turn_of_record (tA tB : task) (w : world) (x : run_id) :
  holds_elements tA → holds_elements tB →
  turn (Overlap tA tB w) x =
    match x with
    | RunA =>
        Overlap (task_after tA) tB
          (World (doc_after tA (doc w)) (defaultPrevented w)
             (journal w ++ journal_after tA) (frames w ++ frames_after tA (doc w)))
    | RunB =>
        Overlap tA (task_after tB)
          (World (doc_after tB (doc w)) (defaultPrevented w)
             (journal w ++ journal_after tB) (frames w ++ frames_after tB (doc w)))
    end.
Proof.
  intros HA HB. rewrite (turn_closed_form (Overlap tA tB w) x HA HB). by destruct x.
Qed.

(** Gives the innermost pending turn of a schedule. *)
Ltac take_turn :=
  rewrite turn_of_record by done;
  cbn [task_after doc_after doc defaultPrevented journal frames].

Lemma settle_fulfilled (net : network) (e : SubmitEvent) (r : Response) :
  net "/api/process_query" (request_of e) = Fulfilled r →
  settle net e = body_outcome r (json_body r).
Proof. unfold settle. by intros ->. Qed.

(** Reading the output element through the writes of a settling turn. *)
Lemma output_leave_busy (d : document) :
  output_text (leave_busy d) = output_text d
  ∧ output_color (leave_busy d) = output_color d.
Proof. unfold output_text, output_color, leave_busy. by rewrite !lookup_alter_ne. Qed.

Lemma output_render (o : outcome) (d : document) :
  is_Some (d !! "response-output") →
  output_text (render o d) = Some (outcome_text o)
  ∧ output_color (render o d)
    = match o with
      | Success _ => output_color d
      | _ => Some "red"
      end.
Proof.
  intros [el Hel]. unfold output_text, output_color.
  destruct o; unfold render; rewrite ?lookup_alter_eq, Hel; done.
Qed.

(** ** Two submissions at once *)

(** X14.  When a second submission is triggered while the first is still
    waiting, each of the two runs sends its own request, the first
    first, and no turn taken afterwards sends another: whatever the
    order in which the runs are resumed, two requests have been sent. *)
Theorem overlap_sends_both_requests (netA netB : network) (eA eB : SubmitEvent)
    (d : document) (schedule : list run_id) :
  markup d →
  requests (journal (shared (overlapping netA netB eA eB d schedule)))
  = [("/api/process_query", request_of eA); ("/api/process_query", request_of eB)].
Proof.
  intros Hd.
  by destruct (overlapping_invariant netA netB eA eB d schedule Hd)
    as (_ & _ & _ & _ & Hreq & _).
Qed.

Lemma overlap_sends_both_requests_witness :
  let working := backend 200 (Fulfilled (VObject {["response" := VString "OK-42"]})) in
  let s := overlapping unreachable working sample_event sample_event sample_page
             [RunB; RunA; RunB] in
  markup sample_page
  ∧ requests (journal (shared s))
    = [("/api/process_query", request_of sample_event);
       ("/api/process_query", request_of sample_event)].
Proof.
  intros working s.
  assert (markup sample_page) as Hd by markup_by_lookup.
  split; [exact Hd|].
  exact (overlap_sends_both_requests unreachable working sample_event sample_event
           sample_page [RunB; RunA; RunB] Hd).
Defined.

(** X15.  Nothing but the disabled button keeps two runs apart: when two
    submissions overlap, the page is idle (button enabled, indicator
    hidden) from the moment either run has finished, whatever the order
    of the turns, even though the other run may still be waiting for its
    response; it is so once the first run has taken its two turns and the
    second none. *)
Theorem first_to_finish_frees_the_page (netA netB : network) (eA eB : SubmitEvent)
    (d : document) :
  markup d →
  (∀ schedule,
     let s := overlapping netA netB eA eB d schedule in
     is_finished (taskA s) || is_finished (taskB s) = true →
     idle (doc (shared s)) = true)
  ∧ (let s := overlapping netA netB eA eB d [RunA; RunA] in
     is_finished (taskA s) = true
     ∧ taskB s = AwaitingResponse held (netB "/api/process_query" (request_of eB))
     ∧ idle (doc (shared s)) = true).
Proof.
  intros Hd.
  assert (∀ schedule,
            let s := overlapping netA netB eA eB d schedule in
            is_finished (taskA s) || is_finished (taskB s) = true →
            idle (doc (shared s)) = true) as Hidle.
  { intros schedule.
    by destruct (overlapping_invariant netA netB eA eB d schedule Hd)
      as (_ & _ & _ & _ & _ & Hidle). }
  split; [exact Hidle|]. cbn zeta.
  assert (is_finished (taskA (overlapping netA netB eA eB d [RunA; RunA])) = true
          ∧ taskB (overlapping netA netB eA eB d [RunA; RunA])
            = AwaitingResponse held (netB "/api/process_query" (request_of eB)))
    as [HA HB].
  { rewrite (overlapping_closed_form netA netB eA eB d _ Hd).
    destruct (netA "/api/process_query" (request_of eA)) as [rA|errorA];
      cbn [foldl]; do 2 take_turn; done. }
  split; [done|]. split; [done|]. apply Hidle. by rewrite HA.
Qed.

Lemma first_to_finish_frees_the_page_witness :
  let working := backend 200 (Fulfilled (VObject {["response" := VString "OK-42"]})) in
  let s := overlapping unreachable working sample_event sample_event sample_page
             [RunA; RunA] in
  markup sample_page
  ∧ is_finished (taskA s) = true
  ∧ is_finished (taskB s) = false
  ∧ idle (doc (shared s)) = true.
Proof.
  intros working s.
  assert (markup sample_page) as Hd by markup_by_lookup.
  destruct (first_to_finish_frees_the_page unreachable working sample_event
              sample_event sample_page Hd) as (_ & HA & HB & Hidle).
  split; [exact Hd|]. split; [exact HA|]. split; [|exact Hidle].
  fold s in HB. rewrite HB. reflexivity.
Defined.

(** ** What the page shows when two runs overlap *)

Lemma run_state_holds (net : network) (e : SubmitEvent) (t : task) :
  run_state net e t → holds_elements t.
Proof. destruct t; cbn; tauto. Qed.

Lemma run_state_after (net : network) (e : SubmitEvent) (t : task) :
  run_state net e t → run_state net e (task_after t).
Proof.
  destruct t as [els [r|error]|els r p|c]; cbn; try done.
  by intros [-> <-].
Qed.

(** A turn that does not finish its run writes nothing. *)
Lemma idle_turn_doc (t : task) (d : document) :
  is_finished t || negb (is_finished (task_after t)) = true → doc_after t d = d.
Proof. by destruct t as [els [r|error]|els r p|c]. Qed.

(** A turn that finishes its run writes the outcome of the run. *)
Lemma finishing_turn_doc (net : network) (e : SubmitEvent) (t : task) (d : document) :
  run_state net e t →
  is_finished t = false → is_finished (task_after t) = true →
  doc_after t d = leave_busy (render (settle net e) d).
Proof.
  destruct t as [els [r|error]|els r p|c]; cbn; try done.
  - intros [_ Hnet] _ _. by rewrite (settle_rejected net e error).
  - intros (_ & Hnet & ->) _ _. by rewrite (settle_fulfilled net e r Hnet).
Qed.

Lemma output_after_finishing (o : outcome) (d : document) :
  markup d →
  output_text (leave_busy (render o d)) = Some (outcome_text o)
  ∧ output_color (leave_busy (render o d))
    = (if fails o then Some "red" else output_color d).
Proof.
  intros (_ & _ & Hout).
  destruct (output_leave_busy (render o d)) as [-> ->].
  destruct (output_render o d Hout) as [-> ->]. by destruct o.
Qed.

Lemma turn_keeps_output (netA netB : network) (eA eB : SubmitEvent)
    (s : overlap) (last : option run_id) (x : run_id) :
  output_invariant netA netB eA eB s last →
  output_invariant netA netB eA eB (turn s x)
    (if negb (is_finished (task_of s x)) && is_finished (task_of (turn s x) x)
     then Some x else last).
Proof.
  destruct s as [tA tB w]. intros (HA & HB & Hd & Htext & Hcolor).
  cbn [taskA taskB shared] in *.
  rewrite (turn_of_record tA tB w x (run_state_holds _ _ _ HA) (run_state_holds _ _ _ HB)).
  unfold output_invariant.
  destruct x; cbn [task_of taskA taskB shared doc].
  - destruct (is_finished tA) eqn:HfA.
    { rewrite (idle_turn_doc tA) by (by rewrite HfA).
      destruct tA; try discriminate. by cbn [task_after negb andb is_finished] in *. }
    destruct (is_finished (task_after tA)) eqn:HfA'; cbn [negb andb].
    + rewrite (finishing_turn_doc netA eA tA _ HA HfA HfA').
      destruct (output_after_finishing (settle netA eA) _ Hd) as [-> ->].
      split; [by apply run_state_after|]. split; [done|].
      split; [by apply markup_leave_busy, markup_render|]. split; [done|].
      rewrite Hcolor. cbn [andb orb]. by destruct (fails (settle netA eA)).
    + rewrite (idle_turn_doc tA) by (by rewrite HfA'; destruct (is_finished tA)).
      split; [by apply run_state_after|]. by rewrite Htext, Hcolor.
  - destruct (is_finished tB) eqn:HfB.
    { rewrite (idle_turn_doc tB) by (by rewrite HfB).
      destruct tB; try discriminate. by cbn [task_after negb andb is_finished] in *. }
    destruct (is_finished (task_after tB)) eqn:HfB'; cbn [negb andb].
    + rewrite (finishing_turn_doc netB eB tB _ HB HfB HfB').
      destruct (output_after_finishing (settle netB eB) _ Hd) as [-> ->].
      split; [done|]. split; [by apply run_state_after|].
      split; [by apply markup_leave_busy, markup_render|]. split; [done|].
      rewrite Hcolor. cbn [andb]. rewrite orb_false_r.
      destruct (fails (settle netB eB)); [by rewrite orb_true_r | by rewrite orb_false_r].
    + rewrite (idle_turn_doc tB) by (by rewrite HfB'; destruct (is_finished tB)).
      split; [done|]. split; [by apply run_state_after|]. by rewrite Htext, Hcolor.
Qed.

Lemma turns_keep_output (netA netB : network) (eA eB : SubmitEvent)
    (schedule : list run_id) (s : overlap) (last : option run_id) :
  output_invariant netA netB eA eB s last →
  output_invariant netA netB eA eB (foldl turn s schedule)
    (last_finished s schedule last).
Proof.
  revert s last. induction schedule as [|x schedule IH]; intros s last Hs; [done|].
  cbn [foldl last_finished]. by apply IH, turn_keeps_output.
Qed.

Lemma both_started_closed_form (netA netB : network) (eA eB : SubmitEvent)
    (d : document) :
  markup d →
  both_started netA netB eA eB d =
    Overlap
      (AwaitingResponse held (netA "/api/process_query" (request_of eA)))
      (AwaitingResponse held (netB "/api/process_query" (request_of eB)))
      (World (enter_busy (enter_busy d))
             (cancelable eA || cancelable eB)
             (entry_journal eA ++ entry_journal eB)
             [enter_busy d; enter_busy (enter_busy d)]).
Proof.
  intros Hd. unfold both_started.
  rewrite (first_turn_closed_form netA eA (start d) Hd). cbn [start doc].
  rewrite first_turn_closed_form by (by apply markup_enter_busy). done.
Qed.

Lemma overlapping_output (netA netB : network) (eA eB : SubmitEvent)
    (d : document) (schedule : list run_id) :
  markup d →
  output_invariant netA netB eA eB (overlapping netA netB eA eB d schedule)
    (last_finished (both_started netA netB eA eB d) schedule None).
Proof.
  intros Hd. rewrite (overlapping_closed_form netA netB eA eB d schedule Hd).
  rewrite (both_started_closed_form netA netB eA eB d Hd).
  apply turns_keep_output. unfold output_invariant.
  cbn [taskA taskB shared doc run_state is_finished andb orb].
  pose proof (markup_enter_busy _ Hd) as Hd'.
  destruct (enter_busy_output _ Hd') as [-> ->].
  repeat split; try done; by apply markup_enter_busy.
Qed.

(** The schedules of two turns each in which the last turn is given to
    the run [x]. *)
Lemma last_of_four (netA netB : network) (eA eB : SubmitEvent) (d : document)
    (r : Response) (x : run_id) :
  markup d →
  (if x is RunA then netA "/api/process_query" (request_of eA)
   else netB "/api/process_query" (request_of eB)) = Fulfilled r →
  Forall (λ schedule,
            last_finished (both_started netA netB eA eB d) schedule None = Some x)
         (match x with
          | RunA => [[RunB; RunB; RunA; RunA]; [RunB; RunA; RunB; RunA];
                     [RunA; RunB; RunB; RunA]]
          | RunB => [[RunA; RunA; RunB; RunB]; [RunA; RunB; RunA; RunB];
                     [RunB; RunA; RunA; RunB]]
          end).
Proof.
  intros Hd Hx. rewrite (both_started_closed_form netA netB eA eB d Hd).
  destruct x; rewrite Hx.
  - repeat (apply Forall_cons_2;
      [ destruct (netB "/api/process_query" (request_of eB)) as [rB|errorB];
        cbn [last_finished]; repeat take_turn;
        cbn [task_of taskA taskB is_finished negb andb]; done
      | ]).
    apply Forall_nil_2.
  - repeat (apply Forall_cons_2;
      [ destruct (netA "/api/process_query" (request_of eA)) as [rA|errorA];
        cbn [last_finished]; repeat take_turn;
        cbn [task_of taskA taskB is_finished negb andb]; done
      | ]).
    apply Forall_nil_2.
Qed.

(** X16.  The success branch writes the text and trusts the colour set
    on entering the busy state.  So when two submissions overlap and a
    first run has failed (with an error response or in the [catch]
    block) by the time the second finishes with a success, the page ends
    up showing the success text of the second in the red left by the
    first: in every order of the turns in which the first run has
    finished and the second was the last to finish, and so in the three
    orders of two turns each that end with a turn of the second. *)
Theorem success_text_in_red (netA netB : network) (eA eB : SubmitEvent)
    (d : document) (text : string) :
  markup d →
  fails (settle netA eA) = true →
  settle netB eB = Success text →
  (∀ schedule,
     let s := overlapping netA netB eA eB d schedule in
     is_finished (taskA s) = true →
     last_finished (both_started netA netB eA eB d) schedule None = Some RunB →
     output_text (doc (shared s)) = Some text
     ∧ output_color (doc (shared s)) = Some "red")
  ∧ Forall (λ schedule,
              let s := overlapping netA netB eA eB d schedule in
              is_finished (taskA s) = true ∧ is_finished (taskB s) = true
              ∧ output_text (doc (shared s)) = Some text
              ∧ output_color (doc (shared s)) = Some "red")
           [[RunA; RunA; RunB; RunB]; [RunA; RunB; RunA; RunB];
            [RunB; RunA; RunA; RunB]].
Proof.
  intros Hd HA HB.
  assert (∀ schedule,
            let s := overlapping netA netB eA eB d schedule in
            is_finished (taskA s) = true →
            last_finished (both_started netA netB eA eB d) schedule None = Some RunB →
            output_text (doc (shared s)) = Some text
            ∧ output_color (doc (shared s)) = Some "red") as Hgeneral.
  { intros schedule s HfA Hlast. subst s.
    destruct (overlapping_output netA netB eA eB d schedule Hd)
      as (_ & _ & _ & -> & ->).
    by rewrite Hlast, HB, HfA, HA. }
  split; [exact Hgeneral|].
  assert (∃ rB, netB "/api/process_query" (request_of eB) = Fulfilled rB) as [rB HnetB].
  { unfold settle in HB. destruct (netB _ _) as [rB|]; [by eexists | discriminate]. }
  pose proof (last_of_four netA netB eA eB d rB RunB Hd HnetB) as Hlast.
  assert (Forall (λ schedule,
                    is_finished (taskA (overlapping netA netB eA eB d schedule)) = true
                    ∧ is_finished (taskB (overlapping netA netB eA eB d schedule)) = true)
            [[RunA; RunA; RunB; RunB]; [RunA; RunB; RunA; RunB];
             [RunB; RunA; RunA; RunB]]) as Hdone.
  { repeat (apply Forall_cons_2;
      [ rewrite (overlapping_closed_form netA netB eA eB d _ Hd), HnetB;
        destruct (netA "/api/process_query" (request_of eA)) as [rA|errorA];
        cbn [foldl]; do 4 take_turn; done
      | ]).
    apply Forall_nil_2. }
  rewrite Forall_forall in *. intros schedule Hin. cbn zeta.
  destruct (Hdone schedule Hin) as [HfA HfB].
  destruct (Hgeneral schedule HfA (Hlast schedule Hin)) as [Htext Hcolor].
  done.
Qed.

(** Status 500 for the first submission, status 200 for the second. *)
Lemma success_text_in_red_witness :
  let failing := backend 500 (Fulfilled (VObject ∅)) in
  let working := backend 200 (Fulfilled (VObject {["response" := VString "OK-42"]})) in
  let s := overlapping failing working sample_event sample_event sample_page
             [RunA; RunA; RunB; RunB] in
  markup sample_page
  ∧ output_text (doc (shared s)) = Some "OK-42"
  ∧ output_color (doc (shared s)) = Some "red".
Proof.
  intros failing working s.
  assert (markup sample_page) as Hd by markup_by_lookup.
  destruct (success_text_in_red failing working sample_event sample_event
              sample_page "OK-42" Hd eq_refl eq_refl) as [_ Hall].
  apply Forall_cons_1 in Hall. destruct Hall as [(_ & _ & Htext & Hcolor) _].
  split; [exact Hd|]. split; [exact Htext | exact Hcolor].
Defined.

(** X17.  The listener does not tell a stale answer from a fresh one.
    When two submissions overlap, then after any turns, in any order,
    the output shows the text of whichever run was the last to finish
    (the placeholder while neither has).  So when the second submission
    finishes first, the outcome of the first is what stays: when the
    first gets a response, in each of the three orders of two turns each
    that end with a turn of the first. *)
Theorem stale_answer_overwrites (netA netB : network) (eA eB : SubmitEvent)
    (d : document) :
  markup d →
  (∀ schedule,
     output_text (doc (shared (overlapping netA netB eA eB d schedule)))
     = Some (match last_finished (both_started netA netB eA eB d) schedule None with
             | Some RunA => outcome_text (settle netA eA)
             | Some RunB => outcome_text (settle netB eB)
             | None => placeholder_text
             end))
  ∧ (∀ rA,
       netA "/api/process_query" (request_of eA) = Fulfilled rA →
       Forall (λ schedule,
                 let s := overlapping netA netB eA eB d schedule in
                 is_finished (taskA s) = true ∧ is_finished (taskB s) = true
                 ∧ output_text (doc (shared s)) = Some (outcome_text (settle netA eA)))
              [[RunB; RunB; RunA; RunA]; [RunB; RunA; RunB; RunA];
               [RunA; RunB; RunB; RunA]]).
Proof.
  intros Hd.
  assert (∀ schedule,
     output_text (doc (shared (overlapping netA netB eA eB d schedule)))
     = Some (match last_finished (both_started netA netB eA eB d) schedule None with
             | Some RunA => outcome_text (settle netA eA)
             | Some RunB => outcome_text (settle netB eB)
             | None => placeholder_text
             end)) as Hgeneral.
  { intros schedule.
    by destruct (overlapping_output netA netB eA eB d schedule Hd)
      as (_ & _ & _ & -> & _). }
  split; [exact Hgeneral|]. intros rA HnetA.
  pose proof (last_of_four netA netB eA eB d rA RunA Hd HnetA) as Hlast.
  assert (Forall (λ schedule,
                    is_finished (taskA (overlapping netA netB eA eB d schedule)) = true
                    ∧ is_finished (taskB (overlapping netA netB eA eB d schedule)) = true)
            [[RunB; RunB; RunA; RunA]; [RunB; RunA; RunB; RunA];
             [RunA; RunB; RunB; RunA]]) as Hdone.
  { repeat (apply Forall_cons_2;
      [ rewrite (overlapping_closed_form netA netB eA eB d _ Hd), HnetA;
        destruct (netB "/api/process_query" (request_of eB)) as [rB|errorB];
        cbn [foldl]; do 4 take_turn; done
      | ]).
    apply Forall_nil_2. }
  rewrite Forall_forall in *. intros schedule Hin. cbn zeta.
  destruct (Hdone schedule Hin) as [HfA HfB].
  rewrite (Hgeneral schedule), (Hlast schedule Hin). done.
Qed.

Lemma stale_answer_overwrites_witness :
  let old := backend 200 (Fulfilled (VObject {["response" := VString "taloha"]})) in
  let new := backend 200 (Fulfilled (VObject {["response" := VString "vaovao"]})) in
  let s := overlapping old new sample_event sample_event sample_page
             [RunA; RunB; RunB; RunA] in
  markup sample_page
  ∧ is_finished (taskA s) = true ∧ is_finished (taskB s) = true
  ∧ output_text (doc (shared s)) = Some "taloha".
Proof.
  intros old new s.
  assert (markup sample_page) as Hd by markup_by_lookup.
  destruct (stale_answer_overwrites old new sample_event sample_event sample_page Hd)
    as [_ Hall].
  specialize (Hall (Resp 200 (Fulfilled (VObject {["response" := VString "taloha"]})))
                eq_refl).
  apply Forall_cons_1 in Hall. destruct Hall as [_ Hall].
  apply Forall_cons_1 in Hall. destruct Hall as [_ Hall].
  apply Forall_cons_1 in Hall. destruct Hall as [Hthird _].
  split; [exact Hd | exact Hthird].
Defined.

(** ** From the script tag to a submission *)

Lemma first_turn_canceled (net : network) (e : SubmitEvent) (w : world) :
  defaultPrevented (first_turn net e w).2 = defaultPrevented w || cancelable e.
Proof.
  unfold_turns.
  destruct (doc w !! "submit-btn"), (doc w !! "loading-indicator"),
    (doc w !! "response-output"); by unfold_turns.
Qed.

(** X18.  Once the script has run on a document that holds the form
    [gemini-form], a user's submission of that form starts exactly one
    run of the listener and does not navigate, whatever the page looks
    like by then; resumed for its two later turns, the run ends as
    [dispatch] says.  A form with any other id has no listener and is
    submitted natively. *)
Theorem loaded_script_takes_over (d : document) :
  is_Some (d !! "gemini-form") →
  let loaded := script d [] in
  loaded.1 = Normal ()
  ∧ (∀ net form d',
       let e := Event form true in
       let r := user_submits net loaded.2 "gemini-form" form d' in
       navigates r = false
       ∧ started r = [(first_turn net e (start d')).1]
       ∧ page r = (first_turn net e (start d')).2
       ∧ (∀ t, started r = [t] →
            let '(t', w') := next_turn t (page r) in
            next_turn t' w' = (Finished (dispatch net e d').1, (dispatch net e d').2)))
  ∧ (∀ net id form d',
       id ≠ "gemini-form" →
       user_submits net loaded.2 id form d' = Dispatched [] (start d') true).
Proof.
  intros [el Hel] loaded. subst loaded. unfold script. rewrite Hel.
  cbn [fst snd app]. split; [done|]. split.
  - intros net form d'. set (e := Event form true).
    unfold user_submits. cbn [foldl on_element event_type callback].
    cbn [String.eqb Ascii.eqb Bool.eqb andb].
    pose proof (first_turn_canceled net e (start d')) as Hflag.
    pose proof (turns_make_the_run net e (start d')) as Hrun.
    fold e. destruct (first_turn net e (start d')) as [t1 w1].
    cbn [app started page navigates fst snd] in *.
    rewrite Hflag. cbn. repeat split. by intros t [= <-].
  - intros net id form d' Hid. unfold user_submits.
    cbn [foldl on_element event_type].
    destruct (String.eqb_spec "gemini-form" id) as [<-|_]; [done|]. done.
Qed.

Lemma loaded_script_takes_over_witness :
  let d : document := <["gemini-form" := Element false ∅ "" ""]> sample_page in
  let loaded := script d [] in
  is_Some (d !! "gemini-form")
  ∧ loaded.1 = Normal ()
  ∧ navigates (user_submits unreachable loaded.2 "gemini-form"
                 (target sample_event) d) = false.
Proof.
  intros d loaded.
  assert (is_Some (d !! "gemini-form")) as Hform by (eexists; reflexivity).
  destruct (loaded_script_takes_over d Hform) as (Hload & Hsubmit & _).
  destruct (Hsubmit unreachable (target sample_event) d) as (Hnav & _).
  split; [exact Hform|]. split; [exact Hload | exact Hnav].
Defined.

(** X19.  If the form [gemini-form] is not in the document when the
    script runs, the script throws a [TypeError] and registers nothing:
    the list of listeners is left as it was, and a form submitted later,
    whatever its id, starts no run and is submitted natively. *)
Theorem script_without_form (d : document) (registered : list registration) :
  d !! "gemini-form" = None →
  (∃ msg, (script d registered).1 = Throw (TypeError msg))
  ∧ (script d registered).2 = registered
  ∧ (∀ net id form d',
       user_submits net (script d []).2 id form d' = Dispatched [] (start d') true).
Proof.
  intros Hnone. unfold script. rewrite Hnone. cbn [fst snd].
  split; [by eexists|]. split; done.
Qed.

Lemma script_without_form_witness :
  sample_page !! "gemini-form" = None
  ∧ (∃ msg, (script sample_page []).1 = Throw (TypeError msg))
  ∧ (script sample_page []).2 = []
  ∧ navigates (user_submits unreachable (script sample_page []).2 "gemini-form"
                 (target sample_event) sample_page) = true.
Proof.
  assert (sample_page !! "gemini-form" = None) as Hnone by reflexivity.
  destruct (script_without_form sample_page [] Hnone) as (Hthrow & Hsame & Hnative).
  split; [exact Hnone|]. split; [exact Hthrow|]. split; [exact Hsame|].
  by rewrite (Hnative unreachable "gemini-form" (target sample_event) sample_page).
Defined.
